(** * kvgo configuration layer (conf.go): model and verified properties

    The development embeds [conf.go] of package [kvgo]: the configuration
    records, the cluster-master selector [randMasters], the validation
    method [Valid], the normaliser [reset] and the option parser
    [ConfigParse].

    Conventions of the embedding.
    - Go [int] is modelled by [Z]; the only arithmetic on it in this file
      is the loop increment [i++], written with its 64-bit wrap-around.
    - Go [string] is a byte sequence and is modelled by [string].
    - A Go [error] is [option string]: [None] is [nil], [Some msg] is
      [errors.New(msg)].
    - [*ConfigTLSCertificate] is a pointer: certificates live in a store
      indexed by locations, so that two owners may share one certificate
      and a write through one pointer is seen through the other.
    - A method with receiver [it *Config] is a state transformer on the
      pair of the receiver's contents and the certificate store.
    - A run-time panic is an explicit outcome. *)

From Stdlib Require Import ZArith String Ascii List Bool Lia.
From stdpp Require Import base option list gmap strings.

Local Open Scope string_scope.
Local Open Scope list_scope.
Local Open Scope Z_scope.

(** ** Outcomes of a call *)

Inductive outcome (A : Type) : Type :=
| Ret (a : A)            (* normal return *)
| Panic (msg : string)   (* run-time panic *)
| OutOfFuel.             (* the model's loop budget was too small *)

Arguments Ret {A} a.
Arguments Panic {A} msg.
Arguments OutOfFuel {A}.

Definition obind {A B} (m : outcome A) (k : A -> outcome B) : outcome B :=
  match m with
  | Ret a => k a
  | Panic msg => Panic msg
  | OutOfFuel => OutOfFuel
  end.

Notation "'do!' x <- m ; k" := (obind m (fun x => k))
  (at level 20, x name, m at level 100, k at level 200).

(** ** Machine integers *)

Definition int_min : Z := - 2 ^ 63.
Definition int_max : Z := 2 ^ 63 - 1.

(** Two's-complement wrap-around of a 64-bit [int]. *)
Definition wrap_int (z : Z) : Z := (z + 2 ^ 63) mod 2 ^ 64 - 2 ^ 63.

(** [len(s)] of a slice. *)
Definition len {A} (s : list A) : Z := Z.of_nat (length s).

(** [s[i]] of a slice: out of range is a run-time panic. *)
Definition index {A} (s : list A) (i : Z) : outcome A :=
  if (0 <=? i) && (i <? len s) then
    match s !! Z.to_nat i with
    | Some x => Ret x
    | None => Panic "index out of range"
    end
  else Panic "index out of range".

(** ** Configuration schema *)

Definition error := option string.

(** Address of a heap-allocated [ConfigTLSCertificate]. *)
Definition loc := positive.

Record ConfigStorage := mkConfigStorage {
  DataDirectory : string
}.

Record ConfigTLSCertificate := mkConfigTLSCertificate {
  ServerKeyFile : string;
  ServerKeyData : string;
  ServerCertFile : string;
  ServerCertData : string
}.

(** [AuthTLSCert] is a [*ConfigTLSCertificate]: [None] is [nil]. *)
Record ConfigServer := mkConfigServer {
  Bind : string;
  AuthSecretKey : string;
  AuthTLSCert : option loc
}.

Record ConfigPerformance := mkConfigPerformance {
  WriteBufferSize : Z;
  BlockCacheSize : Z;
  MaxTableSize : Z;
  MaxOpenFiles : Z
}.

Record ConfigFeature := mkConfigFeature {
  WriteMetaDisable : bool;
  WriteLogDisable : bool;
  TableCompressName : string
}.

Record ConfigClusterMaster := mkConfigClusterMaster {
  Master_Addr : string;
  Master_AuthSecretKey : string;
  Master_AuthTLSCert : option loc
}.

(** [Masters] is a [[]*ConfigClusterMaster]: an entry is [None] for a
    [nil] pointer.  No function of this file writes to a master, so a
    master is represented by its contents. *)
Record ConfigCluster := mkConfigCluster {
  Masters : list (option ConfigClusterMaster)
}.

Record Config := mkConfig {
  Storage : ConfigStorage;
  Server : ConfigServer;
  Performance : ConfigPerformance;
  Feature : ConfigFeature;
  Cluster : ConfigCluster;
  ClientConnectEnable : bool
}.

(** The zero values [ConfigTLSCertificate{}] and [Config{}]. *)
Definition zeroTLS : ConfigTLSCertificate := mkConfigTLSCertificate "" "" "" "".

Definition zeroConfig : Config :=
  mkConfig (mkConfigStorage "")
           (mkConfigServer "" "" None)
           (mkConfigPerformance 0 0 0 0)
           (mkConfigFeature false false "")
           (mkConfigCluster [])
           false.

(** ** Field assignments *)

Definition set_DataDirectory (v : string) (c : Config) : Config :=
  mkConfig (mkConfigStorage v)
           (Server c) (Performance c) (Feature c) (Cluster c) (ClientConnectEnable c).

Definition set_Bind (v : string) (c : Config) : Config :=
  mkConfig (Storage c)
           (mkConfigServer v (AuthSecretKey (Server c)) (AuthTLSCert (Server c)))
           (Performance c) (Feature c) (Cluster c) (ClientConnectEnable c).

Definition set_Performance (p : ConfigPerformance) (c : Config) : Config :=
  mkConfig (Storage c) (Server c) p (Feature c) (Cluster c) (ClientConnectEnable c).

Definition set_WriteBufferSize (v : Z) (c : Config) : Config :=
  let p := Performance c in
  set_Performance
    (mkConfigPerformance v (BlockCacheSize p) (MaxTableSize p) (MaxOpenFiles p)) c.

Definition set_BlockCacheSize (v : Z) (c : Config) : Config :=
  let p := Performance c in
  set_Performance
    (mkConfigPerformance (WriteBufferSize p) v (MaxTableSize p) (MaxOpenFiles p)) c.

Definition set_MaxTableSize (v : Z) (c : Config) : Config :=
  let p := Performance c in
  set_Performance
    (mkConfigPerformance (WriteBufferSize p) (BlockCacheSize p) v (MaxOpenFiles p)) c.

Definition set_MaxOpenFiles (v : Z) (c : Config) : Config :=
  let p := Performance c in
  set_Performance
    (mkConfigPerformance (WriteBufferSize p) (BlockCacheSize p) (MaxTableSize p) v) c.

Definition set_Feature (f : ConfigFeature) (c : Config) : Config :=
  mkConfig (Storage c) (Server c) (Performance c) f (Cluster c) (ClientConnectEnable c).

Definition set_WriteMetaDisable (v : bool) (c : Config) : Config :=
  let f := Feature c in
  set_Feature (mkConfigFeature v (WriteLogDisable f) (TableCompressName f)) c.

Definition set_WriteLogDisable (v : bool) (c : Config) : Config :=
  let f := Feature c in
  set_Feature (mkConfigFeature (WriteMetaDisable f) v (TableCompressName f)) c.

Definition set_TableCompressName (v : string) (c : Config) : Config :=
  let f := Feature c in
  set_Feature (mkConfigFeature (WriteMetaDisable f) (WriteLogDisable f) v) c.

Definition set_ClientConnectEnable (v : bool) (c : Config) : Config :=
  mkConfig (Storage c) (Server c) (Performance c) (Feature c) (Cluster c) v.

Definition set_ServerKeyData (v : string) (t : ConfigTLSCertificate) : ConfigTLSCertificate :=
  mkConfigTLSCertificate (ServerKeyFile t) v (ServerCertFile t) (ServerCertData t).

Definition set_ServerCertData (v : string) (t : ConfigTLSCertificate) : ConfigTLSCertificate :=
  mkConfigTLSCertificate (ServerKeyFile t) (ServerKeyData t) (ServerCertFile t) v.

(** ** The certificate store

    Every location holds a certificate; a location that was never
    written holds the zero value. *)

Abbreviation Store := (gmap loc ConfigTLSCertificate).

Definition load (h : Store) (l : loc) : ConfigTLSCertificate :=
  default zeroTLS (h !! l).

Definition store (l : loc) (t : ConfigTLSCertificate) (h : Store) : Store :=
  <[l := t]> h.

(** ** Methods on [*Config] as state transformers *)

Definition State : Type := Config * Store.

Definition M (A : Type) : Type := State -> A * State.

Definition ret {A} (a : A) : M A := fun s => (a, s).

Definition bind {A B} (m : M A) (k : A -> M B) : M B :=
  fun s => let (a, s') := m s in k a s'.

Notation "'do' x <- m ; k" := (bind m (fun x => k))
  (at level 20, x name, m at level 100, k at level 200).
Notation "m ;; k" := (bind m (fun _ => k))
  (at level 100, k at level 200, right associativity).

(** Reads [f(it)], the receiver's current contents. *)
Definition read {A} (f : Config -> A) : M A := fun s => (f (fst s), s).

(** Assigns to a field of the receiver. *)
Definition assign (f : Config -> Config) : M unit := fun s => (tt, (f (fst s), snd s)).

(** Reads the certificate behind a pointer. *)
Definition deref (l : loc) : M ConfigTLSCertificate := fun s => (load (snd s) l, s).

(** Assigns to a field of the certificate behind a pointer. *)
Definition assign_at (l : loc) (f : ConfigTLSCertificate -> ConfigTLSCertificate) : M unit :=
  fun s => (tt, (fst s, store l (f (load (snd s) l)) (snd s))).

Definition skip : M unit := ret tt.

(** ** The external collaborators *)

(** [rand.Intn(n)] of [math/rand]: panics when [n <= 0], and otherwise
    returns a number of the half-open interval [[0,n)].  [r] is the
    non-negative number the process-wide source hands out for the call. *)
Definition Intn (r : Z) (n : Z) : outcome Z :=
  if n <=? 0 then Panic "invalid argument to Intn" else Ret (r mod n).

(** A value of the option source, seen through its two coercions
    [v.String()] and [v.Int()]. *)
Record OptValue := mkOptValue {
  Value_String : string;
  Value_Int : Z
}.

(** [opts.Items.Get(key)] is a presence-checked lookup: [None] stands
    for [ok == false]. *)
Record Labels := mkLabels {
  Get : string -> option OptValue
}.

Record ConnOptions := mkConnOptions {
  Items : Labels
}.

(** An option source given by an ordered list of entries; the first
    entry of a key is the one found. *)
Fixpoint lookup_entry (kvs : list (string * OptValue)) (key : string) : option OptValue :=
  match kvs with
  | [] => None
  | (k, v) :: rest => if String.eqb k key then Some v else lookup_entry rest key
  end.

Definition options_of (kvs : list (string * OptValue)) : ConnOptions :=
  mkConnOptions (mkLabels (lookup_entry kvs)).

(** An entry whose text is [s]. *)
Definition text (s : string) : OptValue := mkOptValue s 0.

(** An entry whose text parses to the integer [n]. *)
Definition number (s : string) (n : Z) : OptValue := mkOptValue s n.

(** ** Cluster master selection *)

(** The [range] loop of [Master]: the first entry whose address is
    [addr]; reading [v.Addr] through a [nil] entry panics. *)
Fixpoint Master_range (ms : list (option ConfigClusterMaster)) (addr : string)
    : outcome (option ConfigClusterMaster) :=
  match ms with
  | [] => Ret None
  | None :: _ => Panic "invalid memory address or nil pointer dereference"
  | Some v :: rest =>
      if String.eqb addr (Master_Addr v) then Ret (Some v)
      else Master_range rest addr
  end.

Definition Master (it : ConfigCluster) (addr : string)
    : outcome (option ConfigClusterMaster) :=
  Master_range (Masters it) addr.

(** One of the two loops of [randMasters]:
    [for i := lo; i < hi && len(ls) <= cap; i++ { ls = append(ls, ms[i]) }]
    entered with [i] and [ls]. *)
Fixpoint append_from (fuel : nat) (ms : list (option ConfigClusterMaster))
    (hi cap i : Z) (ls : list (option ConfigClusterMaster))
    : outcome (list (option ConfigClusterMaster)) :=
  if (i <? hi) && (len ls <=? cap) then
    match fuel with
    | O => OutOfFuel
    | S fuel' =>
        do! m <- index ms i;
        append_from fuel' ms hi cap (wrap_int (i + 1)) (ls ++ [m])
    end
  else Ret ls.

Definition randMasters (fuel : nat) (r : Z) (it : ConfigCluster) (cap : Z)
    : outcome (list (option ConfigClusterMaster)) :=
  let ls := [] in
  do! offset <- Intn r (len (Masters it));
  do! ls <- append_from fuel (Masters it) (len (Masters it)) cap offset ls;
  do! ls <- append_from fuel (Masters it) offset cap 0 ls;
  Ret ls.

(** ** Validation *)

Definition Valid : M error :=
  do enabled <- read ClientConnectEnable;
  if enabled then
    do masters <- read (fun it => Masters (Cluster it));
    if len masters <? 1 then ret (Some "no cluster/masters setup")
    else ret None
  else ret None.

(** ** Normalisation and parsing *)

Section Platform.

(** [ioutil.ReadFile] on the file system as it stands: [None] is a
    non-nil error. *)
Variable ReadFile : string -> option string.

(** [strings.TrimSpace]. *)
Variable TrimSpace : string -> string.

(** [filepath.Clean]. *)
Variable Clean : string -> string.

Definition NewConfig (dir : string) : Config :=
  set_DataDirectory (Clean dir) zeroConfig.

(** [reset] returns its receiver; the receiver's final contents are
    the final state. *)
Definition reset : M unit :=
  (do v <- read (fun it => WriteBufferSize (Performance it));
   if v <? 4 then assign (set_WriteBufferSize 4)
   else if v >? 128 then assign (set_WriteBufferSize 128)
   else skip) ;;
  (do v <- read (fun it => BlockCacheSize (Performance it));
   if v <? 8 then assign (set_BlockCacheSize 8)
   else if v >? 4096 then assign (set_BlockCacheSize 4096)
   else skip) ;;
  (do v <- read (fun it => MaxTableSize (Performance it));
   if v <? 8 then assign (set_MaxTableSize 8)
   else if v >? 64 then assign (set_MaxTableSize 64)
   else skip) ;;
  (do v <- read (fun it => MaxOpenFiles (Performance it));
   if v <? 500 then assign (set_MaxOpenFiles 500)
   else if v >? 10000 then assign (set_MaxOpenFiles 10000)
   else skip) ;;
  (do name <- read (fun it => TableCompressName (Feature it));
   if negb (String.eqb name "snappy") then assign (set_TableCompressName "none")
   else skip) ;;
  (do cert <- read (fun it => AuthTLSCert (Server it));
   match cert with
   | Some l =>
       (do t <- deref l;
        if negb (String.eqb (ServerKeyFile t) "") && String.eqb (ServerKeyData t) "" then
          match ReadFile (ServerKeyFile t) with
          | Some bs => assign_at l (set_ServerKeyData (TrimSpace bs))
          | None => skip
          end
        else skip) ;;
       (do t <- deref l;
        if negb (String.eqb (ServerCertFile t) "") && String.eqb (ServerCertData t) "" then
          match ReadFile (ServerCertFile t) with
          | Some bs => assign_at l (set_ServerCertData (TrimSpace bs))
          | None => skip
          end
        else skip)
   | None => skip
   end).

(** [ConfigParse] returns a pointer to a [Config] and an [error]:
    [(None, Some msg)] is [nil, err].  [cfg] is a fresh object; [h] is
    the certificate store of the caller. *)
Definition ConfigParse (opts : ConnOptions) (h : Store) : (option Config * error) * Store :=
  let get := Get (Items opts) in
  let finish : M unit :=
    (match get "server/bind" with
     | Some v => assign (set_Bind (Value_String v))
     | None => skip
     end) ;;
    (match get "performance/write_buffer_size" with
     | Some v => assign (set_WriteBufferSize (Value_Int v))
     | None => skip
     end) ;;
    (match get "performance/block_cache_size" with
     | Some v => assign (set_BlockCacheSize (Value_Int v))
     | None => skip
     end) ;;
    (match get "performance/max_open_files" with
     | Some v => assign (set_MaxOpenFiles (Value_Int v))
     | None => skip
     end) ;;
    (match get "performance/max_table_size" with
     | Some v => assign (set_MaxTableSize (Value_Int v))
     | None => skip
     end) ;;
    (match get "feature/write_meta_disable" with
     | Some v =>
         if String.eqb (Value_String v) "true" then assign (set_WriteMetaDisable true)
         else skip
     | None => skip
     end) ;;
    (match get "feature/write_log_disable" with
     | Some v =>
         if String.eqb (Value_String v) "true" then assign (set_WriteLogDisable true)
         else skip
     | None => skip
     end) ;;
    reset in
  let done (cfg : Config) :=
    let '(_, (cfg, h)) := finish (cfg, h) in ((Some cfg, None), h) in
  let cfg := zeroConfig in
  match get "storage/data_directory" with
  | Some v => done (set_DataDirectory (Clean (Value_String v)) cfg)
  | None =>
      match get "data_dir" with
      | Some v => done (set_DataDirectory (Clean (Value_String v)) cfg)
      | None => ((None, Some "No storage/data_directory Found"), h)
      end
  end.

End Platform.

(** ** Specification-side notions *)

(** The point of the closed interval [[lo,hi]] nearest to [v]. *)
Definition clamp (v lo hi : Z) : Z := Z.max lo (Z.min v hi).

(** The cyclic rotation of [ms] that starts at index [offset]. *)
Definition rotation {A} (offset : nat) (ms : list A) : list A :=
  drop offset ms ++ take offset ms.

(** Emptiness of a slice. *)
Definition is_empty {A} (s : list A) : bool :=
  match s with
  | [] => true
  | _ :: _ => false
  end.

(** The closed form of [reset] on the receiver: every bounded field is
    clamped and the compression name is coerced. *)
Definition normal_performance (p : ConfigPerformance) : ConfigPerformance :=
  mkConfigPerformance (clamp (WriteBufferSize p) 4 128)
                      (clamp (BlockCacheSize p) 8 4096)
                      (clamp (MaxTableSize p) 8 64)
                      (clamp (MaxOpenFiles p) 500 10000).

Definition normal_compress (name : string) : string :=
  if String.eqb name "snappy" then "snappy" else "none".

Definition normal_feature (f : ConfigFeature) : ConfigFeature :=
  mkConfigFeature (WriteMetaDisable f) (WriteLogDisable f)
                  (normal_compress (TableCompressName f)).

Definition normal_config (c : Config) : Config :=
  mkConfig (Storage c) (Server c) (normal_performance (Performance c))
           (normal_feature (Feature c)) (Cluster c) (ClientConnectEnable c).

Section NormalForm.

Variable ReadFile : string -> option string.
Variable TrimSpace : string -> string.

(** A data field is looked up on disk when its path is set and the
    field itself is empty. *)
Definition wants_read (file data : string) : bool :=
  negb (String.eqb file "") && String.eqb data "".

(** The data field is assigned when, moreover, the read succeeds. *)
Definition is_written (file data : string) : bool :=
  wants_read file data &&
  match ReadFile file with
  | Some _ => true
  | None => false
  end.

(** The data field after [reset]. *)
Definition materialize (file data : string) : string :=
  if wants_read file data then
    match ReadFile file with
    | Some bs => TrimSpace bs
    | None => data
    end
  else data.

Definition normal_cert (t : ConfigTLSCertificate) : ConfigTLSCertificate :=
  mkConfigTLSCertificate
    (ServerKeyFile t) (materialize (ServerKeyFile t) (ServerKeyData t))
    (ServerCertFile t) (materialize (ServerCertFile t) (ServerCertData t)).

(** The closed form of [reset] on the certificate store. *)
Definition normal_store (c : Config) (h : Store) : Store :=
  match AuthTLSCert (Server c) with
  | Some l =>
      let t := load h l in
      if is_written (ServerKeyFile t) (ServerKeyData t)
         || is_written (ServerCertFile t) (ServerCertData t)
      then store l (normal_cert t) h
      else h
  | None => h
  end.

End NormalForm.

(** The closed form of [ConfigParse]: the directory it resolves, and
    the draft it hands to [reset]. *)
Definition string_or_empty (o : option OptValue) : string :=
  match o with
  | Some v => Value_String v
  | None => ""
  end.

Definition int_or_zero (o : option OptValue) : Z :=
  match o with
  | Some v => Value_Int v
  | None => 0
  end.

Definition flag_of (o : option OptValue) : bool :=
  match o with
  | Some v => String.eqb (Value_String v) "true"
  | None => false
  end.

Definition resolved_directory (Clean : string -> string) (opts : ConnOptions) : option string :=
  match Get (Items opts) "storage/data_directory" with
  | Some v => Some (Clean (Value_String v))
  | None =>
      match Get (Items opts) "data_dir" with
      | Some v => Some (Clean (Value_String v))
      | None => None
      end
  end.

Definition parsed_draft (opts : ConnOptions) (dir : string) : Config :=
  let get := Get (Items opts) in
  mkConfig (mkConfigStorage dir)
           (mkConfigServer (string_or_empty (get "server/bind")) "" None)
           (mkConfigPerformance (int_or_zero (get "performance/write_buffer_size"))
                                (int_or_zero (get "performance/block_cache_size"))
                                (int_or_zero (get "performance/max_table_size"))
                                (int_or_zero (get "performance/max_open_files")))
           (mkConfigFeature (flag_of (get "feature/write_meta_disable"))
                            (flag_of (get "feature/write_log_disable"))
                            "")
           (mkConfigCluster [])
           false.

(** ** Sample inputs *)

Definition master (addr : string) : option ConfigClusterMaster :=
  Some (mkConfigClusterMaster addr "" None).

Definition four_masters : ConfigCluster :=
  mkConfigCluster [master "A"; master "B"; master "C"; master "D"].

(** A platform for the examples: a disk with one key file, white-space
    trimming on ASCII text, and path cleaning on paths that are already
    in their shortest form. *)
Definition sample_ReadFile (path : string) : option string :=
  if String.eqb path "/etc/kvgo/server.key" then Some "  KEY  " else None.

Definition ascii_space (a : ascii) : bool :=
  let n := nat_of_ascii a in
  Nat.eqb n 32 || (Nat.leb 9 n && Nat.leb n 13).

Fixpoint trim_left (s : string) : string :=
  match s with
  | EmptyString => EmptyString
  | String a rest => if ascii_space a then trim_left rest else s
  end.

Fixpoint trim_right (s : string) : string :=
  match s with
  | EmptyString => EmptyString
  | String a rest =>
      let r := trim_right rest in
      if ascii_space a && String.eqb r "" then EmptyString else String a r
  end.

Definition sample_TrimSpace (s : string) : string := trim_right (trim_left s).

Definition sample_Clean (path : string) : string :=
  if String.eqb path "" then "." else path.

(** A server certificate whose key file is on the sample disk and whose
    certificate file is not. *)
Definition sample_cert : ConfigTLSCertificate :=
  mkConfigTLSCertificate "/etc/kvgo/server.key" "" "/etc/kvgo/server.crt" "".

Definition sample_state : State :=
  (mkConfig (mkConfigStorage "/data")
            (mkConfigServer "127.0.0.1:9100" "" (Some 1%positive))
            (mkConfigPerformance 0 5000 16 20000)
            (mkConfigFeature false false "Snappy")
            (mkConfigCluster [])
            false,
   {[ 1%positive := sample_cert ]}).

Definition sample_options : ConnOptions :=
  options_of [ ("data_dir", text "/b");
               ("storage/data_directory", text "/a");
               ("performance/write_buffer_size", number "1000" 1000);
               ("feature/write_meta_disable", text "true");
               ("feature/write_log_disable", text "True") ].

Definition sample_parsed : Config :=
  mkConfig (mkConfigStorage "/a")
           (mkConfigServer "" "" None)
           (mkConfigPerformance 128 8 8 500)
           (mkConfigFeature true false "none")
           (mkConfigCluster [])
           false.

(** A normalised state whose certificate carries its key inline. *)
Definition sample_cert_inline : ConfigTLSCertificate :=
  mkConfigTLSCertificate "/etc/kvgo/server.key" "INLINE KEY" "" "".

Definition sample_state_inline : State :=
  (mkConfig (mkConfigStorage "/data")
            (mkConfigServer "" "" (Some 2%positive))
            (mkConfigPerformance 64 256 32 1000)
            (mkConfigFeature true false "snappy")
            (mkConfigCluster [master "A"])
            true,
   {[ 2%positive := sample_cert_inline ]}).

(** A disk that holds one more file than the sample disk. *)
Definition sample_ReadFile_more (path : string) : option string :=
  if String.eqb path "/etc/kvgo/server.key" then Some "  KEY  "
  else if String.eqb path "/etc/kvgo/other.key" then Some "OTHER"
  else None.

(** The sample options with two entries no statement of [ConfigParse]
    asks for. *)
Definition sample_options_more : ConnOptions :=
  options_of [ ("log/level", text "debug");
               ("data_dir", text "/b");
               ("storage/data_directory", text "/a");
               ("performance/write_buffer_size", number "1000" 1000);
               ("cluster/masters", text "10.0.0.1:9100");
               ("feature/write_meta_disable", text "true");
               ("feature/write_log_disable", text "True") ].

Definition sample_options_directory_only : ConnOptions :=
  options_of [ ("storage/data_directory", text "/data") ].

(** ** Properties of the integer and slice primitives *)

Lemma wrap_int_small z : int_min <= z <= int_max -> wrap_int z = z.
Proof.
  unfold wrap_int, int_min, int_max. intros Hz.
  rewrite Z.mod_small; lia.
Qed.

Lemma len_nonneg {A} (s : list A) : 0 <= len s.
Proof. unfold len. lia. Qed.

Lemma len_app {A} (s t : list A) : len (s ++ t) = len s + len t.
Proof. unfold len. rewrite length_app. lia. Qed.

Lemma index_in_range {A} (s : list A) (i : Z) :
  0 <= i < len s ->
  exists x, s !! Z.to_nat i = Some x /\ index s i = Ret x.
Proof.
  intros Hi. unfold index.
  assert (Hlt : (Z.to_nat i < length s)%nat) by (unfold len in Hi; lia).
  destruct (lookup_lt_is_Some_2 s _ Hlt) as [x Hx].
  exists x. split; [exact Hx|].
  replace (0 <=? i) with true by (symmetry; apply Z.leb_le; lia).
  replace (i <? len s) with true by (symmetry; apply Z.ltb_lt; lia).
  simpl. now rewrite Hx.
Qed.

Lemma Intn_in_range r n :
  0 < n -> exists k, Intn r n = Ret k /\ 0 <= k < n.
Proof.
  intros Hn. unfold Intn.
  replace (n <=? 0) with false by (symmetry; apply Z.leb_gt; lia).
  exists (r mod n). split; [reflexivity|]. apply Z.mod_pos_bound; lia.
Qed.

(** ** The selection loop *)

(** A loop of [randMasters] appends the next entries of [ms], as many as
    the index bound and the cap allow. *)
Lemma append_from_run fuel ms hi cap : forall i ls,
  0 <= i -> hi <= len ms -> len ms <= int_max ->
  (Z.to_nat (hi - i) <= fuel)%nat ->
  append_from fuel ms hi cap i ls =
    Ret (ls ++ take (Z.to_nat (Z.min (hi - i) (cap + 1 - len ls)))
                    (drop (Z.to_nat i) ms)).
Proof.
  induction fuel as [|fuel IH]; intros i ls Hi Hhi Hmax Hfuel.
  - cbn [append_from].
    destruct (i <? hi) eqn:Hlt.
    + apply Z.ltb_lt in Hlt. lia.
    + apply Z.ltb_ge in Hlt. cbn [andb].
      replace (Z.to_nat (Z.min (hi - i) (cap + 1 - len ls))) with 0%nat by lia.
      now rewrite take_0, app_nil_r.
  - cbn [append_from].
    destruct (i <? hi) eqn:Hlt; cbn [andb].
    2:{ apply Z.ltb_ge in Hlt.
        replace (Z.to_nat (Z.min (hi - i) (cap + 1 - len ls))) with 0%nat by lia.
        now rewrite take_0, app_nil_r. }
    apply Z.ltb_lt in Hlt.
    destruct (len ls <=? cap) eqn:Hcap.
    2:{ apply Z.leb_gt in Hcap.
        replace (Z.to_nat (Z.min (hi - i) (cap + 1 - len ls))) with 0%nat by lia.
        now rewrite take_0, app_nil_r. }
    apply Z.leb_le in Hcap.
    destruct (index_in_range ms i) as [m [Hm Hidx]]; [lia|].
    rewrite Hidx. cbn [obind].
    rewrite wrap_int_small by (unfold int_min; lia).
    rewrite IH by lia.
    rewrite len_app. change (len [m]) with 1.
    rewrite (drop_S ms m (Z.to_nat i) Hm).
    replace (Z.to_nat (Z.min (hi - i) (cap + 1 - len ls)))
      with (S (Z.to_nat (Z.min (hi - (i + 1)) (cap + 1 - (len ls + 1))))) by lia.
    replace (Z.to_nat (i + 1)) with (S (Z.to_nat i)) by lia.
    cbn [take]. now rewrite <- app_assoc.
Qed.

(** A prefix of a rotation, cut in two at the wrap-around point. *)
Lemma take_rotation {A} (ms : list A) (offset n : nat) :
  (offset <= length ms)%nat ->
  take n (rotation offset ms) =
    take (Nat.min (length ms - offset) n) (drop offset ms)
    ++ take (Nat.min offset (n - (length ms - offset))) ms.
Proof.
  intros Hoff. unfold rotation.
  rewrite take_app, length_drop, take_take.
  f_equal.
  - destruct (Nat.le_gt_cases n (length ms - offset)) as [Hn|Hn].
    + now rewrite Nat.min_r by lia.
    + rewrite Nat.min_l by lia.
      rewrite !take_ge; [reflexivity | rewrite length_drop; lia ..].
  - f_equal. lia.
Qed.

(** Entry [j] of the rotation is entry [offset + j] of the list, counted
    cyclically: a rotation keeps the cyclic order of the entries. *)
Lemma rotation_lookup {A} (ms : list A) (offset j : nat) :
  (offset < length ms)%nat -> (j < length ms)%nat ->
  rotation offset ms !! j = ms !! ((offset + j) mod length ms)%nat.
Proof.
  intros Hoff Hj. unfold rotation.
  destruct (Nat.lt_ge_cases j (length ms - offset)) as [Hlt|Hge].
  - rewrite lookup_app_l by (rewrite length_drop; lia).
    rewrite lookup_drop. now rewrite Nat.mod_small by lia.
  - rewrite lookup_app_r by (rewrite length_drop; lia).
    rewrite length_drop.
    rewrite lookup_take_lt by lia.
    f_equal.
    replace (offset + j)%nat with ((j - (length ms - offset)) + 1 * length ms)%nat by lia.
    rewrite Nat.Div0.mod_add. now rewrite Nat.mod_small by lia.
Qed.

Lemma length_take_rotation {A} (ms : list A) (offset n : nat) :
  (offset <= length ms)%nat ->
  length (take n (rotation offset ms)) = Nat.min n (length ms).
Proof.
  intros Hoff. unfold rotation.
  rewrite length_take, length_app, length_drop, length_take. lia.
Qed.

(** With the offset drawn, [randMasters] returns the prefix of the
    rotation at that offset that the cap allows. *)
Lemma randMasters_run fuel r it cap offset :
  Intn r (len (Masters it)) = Ret offset ->
  0 <= offset < len (Masters it) ->
  len (Masters it) <= int_max ->
  (length (Masters it) <= fuel)%nat ->
  randMasters fuel r it cap =
    Ret (take (Z.to_nat (cap + 1)) (rotation (Z.to_nat offset) (Masters it))).
Proof.
  intros Hdraw Hoff Hmax Hfuel. unfold randMasters.
  set (ms := Masters it) in *.
  assert (Hlen : len ms = Z.of_nat (length ms)) by reflexivity.
  rewrite Hdraw. cbn [obind].
  rewrite append_from_run by lia. cbn [obind].
  rewrite append_from_run by lia. cbn [obind].
  rewrite take_rotation by lia.
  rewrite drop_0, app_nil_l.
  unfold len in *. cbn [length].
  f_equal. f_equal.
  - f_equal. lia.
  - f_equal. rewrite length_take, length_drop. lia.
Qed.

(** C1 (the code violates it): on an empty master list [randMasters]
    panics inside [rand.Intn], for every cap, every state of the random
    source and every loop budget; it returns neither an error nor an
    empty result. *)
Theorem randMasters_empty_panics (fuel : nat) (r cap : Z) :
  randMasters fuel r (mkConfigCluster []) cap = Panic "invalid argument to Intn".
Proof. reflexivity. Qed.

(** C2: for a non-empty master list and a cap [>= 0], [randMasters]
    returns the contiguous cyclic rotation of the list that starts at
    the drawn offset, cut to [min(len(masters), cap+1)] entries. *)
Theorem randMasters_rotation (fuel : nat) (r : Z) (it : ConfigCluster) (cap : Z) :
  Masters it <> [] ->
  0 <= cap ->
  len (Masters it) <= int_max ->
  (length (Masters it) <= fuel)%nat ->
  exists offset ls,
    Intn r (len (Masters it)) = Ret offset /\
    0 <= offset < len (Masters it) /\
    randMasters fuel r it cap = Ret ls /\
    ls = take (Z.to_nat (Z.min (len (Masters it)) (cap + 1)))
              (rotation (Z.to_nat offset) (Masters it)) /\
    len ls = Z.min (len (Masters it)) (cap + 1).
Proof.
  intros Hne Hcap Hmax Hfuel.
  assert (Hpos : 0 < len (Masters it)).
  { unfold len. destruct (Masters it); [congruence | cbn [length]; lia]. }
  destruct (Intn_in_range r _ Hpos) as [offset [Hdraw Hoff]].
  exists offset, (take (Z.to_nat (cap + 1)) (rotation (Z.to_nat offset) (Masters it))).
  assert (Hlen : length (rotation (Z.to_nat offset) (Masters it)) = length (Masters it)).
  { unfold rotation. rewrite length_app, length_drop, length_take.
    unfold len in Hoff. lia. }
  repeat split; try assumption; try lia.
  - now apply randMasters_run.
  - destruct (Z.le_gt_cases (len (Masters it)) (cap + 1)) as [Hle|Hgt].
    + rewrite Z.min_l by lia.
      rewrite !take_ge; [reflexivity | unfold len in *; lia ..].
    + now rewrite Z.min_r by lia.
  - unfold len in *. rewrite length_take_rotation by lia. lia.
Qed.

Lemma randMasters_rotation_witness :
  exists offset ls,
    Intn 6 (len (Masters four_masters)) = Ret offset /\
    0 <= offset < len (Masters four_masters) /\
    randMasters 4 6 four_masters 2 = Ret ls /\
    ls = take (Z.to_nat (Z.min (len (Masters four_masters)) (2 + 1)))
              (rotation (Z.to_nat offset) (Masters four_masters)) /\
    len ls = Z.min (len (Masters four_masters)) (2 + 1).
Proof.
  apply (randMasters_rotation 4 6 four_masters 2).
  - discriminate.
  - lia.
  - vm_compute. discriminate.
  - simpl. lia.
Defined.

(** The example of the specification: masters [A,B,C,D], cap 2, offset 2
    give [C,D,A]. *)
Example randMasters_ABCD :
  randMasters 4 6 four_masters 2 = Ret [master "C"; master "D"; master "A"].
Proof. reflexivity. Qed.

(** A negative cap selects nothing. *)
Example randMasters_negative_cap :
  randMasters 4 6 four_masters (-1) = Ret [].
Proof. reflexivity. Qed.

(** The lookup examples of the specification. *)
Example Master_found :
  Master (mkConfigCluster [master "x"; master "y"]) "y" = Ret (master "y").
Proof. reflexivity. Qed.

Example Master_not_found :
  Master (mkConfigCluster [master "x"; master "y"]) "z" = Ret None.
Proof. reflexivity. Qed.

(** ** Validation *)

Lemma Valid_run (c : Config) (h : Store) :
  Valid (c, h) =
    (if ClientConnectEnable c && is_empty (Masters (Cluster c))
     then Some "no cluster/masters setup" else None,
     (c, h)).
Proof.
  cbv beta iota delta [Valid bind read ret fst snd].
  destruct (ClientConnectEnable c); cbn [andb]; [|reflexivity].
  destruct (Masters (Cluster c)) as [|m ms]; [reflexivity|].
  cbn [is_empty].
  replace (len (m :: ms) <? 1) with false; [reflexivity|].
  symmetry. apply Z.ltb_ge. unfold len. cbn [length]. lia.
Qed.

(** C4: [Valid] returns the error "no cluster/masters setup" exactly
    when [ClientConnectEnable] is set and the master list is empty, and
    [nil] otherwise; it leaves the receiver and the store as they were. *)
Theorem Valid_error_exactly (s : State) :
  Valid s =
    (if ClientConnectEnable (fst s) && is_empty (Masters (Cluster (fst s)))
     then Some "no cluster/masters setup" else None,
     s).
Proof. destruct s as [c h]. apply Valid_run. Qed.

(** The three validation examples of the specification. *)
Example Valid_enabled_no_master (h : Store) :
  fst (Valid (set_ClientConnectEnable true zeroConfig, h))
  = Some "no cluster/masters setup".
Proof. reflexivity. Qed.

Example Valid_enabled_one_master (h : Store) :
  fst (Valid (mkConfig (mkConfigStorage "") (mkConfigServer "" "" None)
                       (mkConfigPerformance 0 0 0 0) (mkConfigFeature false false "")
                       (mkConfigCluster [master "m1"]) true, h))
  = None.
Proof. reflexivity. Qed.

Example Valid_disabled_no_master (h : Store) :
  fst (Valid (zeroConfig, h)) = None.
Proof. reflexivity. Qed.

(** ** The clamp *)

Lemma clamp_cases v lo hi :
  lo <= hi ->
  clamp v lo hi = if v <? lo then lo else if v >? hi then hi else v.
Proof.
  intros Hle. unfold clamp.
  destruct (v <? lo) eqn:H1; [apply Z.ltb_lt in H1; lia|].
  apply Z.ltb_ge in H1.
  destruct (v >? hi) eqn:H2.
  - apply Z.gtb_lt in H2. lia.
  - rewrite Z.gtb_ltb in H2. apply Z.ltb_ge in H2. lia.
Qed.

Lemma clamp_bounds v lo hi : lo <= hi -> lo <= clamp v lo hi <= hi.
Proof. unfold clamp. lia. Qed.

Lemma clamp_in_range v lo hi : lo <= v <= hi -> clamp v lo hi = v.
Proof. unfold clamp. lia. Qed.

Lemma clamp_below v lo hi : lo <= hi -> v < lo -> clamp v lo hi = lo.
Proof. unfold clamp. lia. Qed.

Lemma clamp_above v lo hi : lo <= hi -> hi < v -> clamp v lo hi = hi.
Proof. unfold clamp. lia. Qed.

Lemma clamp_idem v lo hi : lo <= hi -> clamp (clamp v lo hi) lo hi = clamp v lo hi.
Proof. intros Hle. apply clamp_in_range, clamp_bounds, Hle. Qed.

(** ** The compression name *)

Lemma normal_compress_snappy name :
  normal_compress name = "snappy" <-> name = "snappy".
Proof.
  unfold normal_compress.
  destruct (String.eqb name "snappy") eqn:E.
  - apply String.eqb_eq in E. tauto.
  - apply String.eqb_neq in E. split; [discriminate | tauto].
Qed.

Lemma normal_compress_idem name :
  normal_compress (normal_compress name) = normal_compress name.
Proof.
  unfold normal_compress.
  destruct (String.eqb name "snappy"); reflexivity.
Qed.

(** ** Running the state transformers *)

Lemma run_bind {A B} (m : M A) (k : A -> M B) (s s' : State) (a : A) :
  m s = (a, s') -> bind m k s = k a s'.
Proof. intros Hm. unfold bind. now rewrite Hm. Qed.

(** One clamping statement of [reset], for a field read by [get] and
    assigned by [set]. *)
Lemma run_clamp (get : Config -> Z) (set : Z -> Config -> Config) lo hi c h :
  lo <= hi ->
  set (get c) c = c ->
  (do v <- read get;
   if v <? lo then assign (set lo)
   else if v >? hi then assign (set hi)
   else skip) (c, h)
  = (tt, (set (clamp (get c) lo hi) c, h)).
Proof.
  intros Hle Heta.
  rewrite clamp_cases by exact Hle.
  cbv beta iota delta [bind read assign skip ret fst snd].
  destruct (get c <? lo); [reflexivity|].
  destruct (get c >? hi); [reflexivity|].
  now rewrite Heta.
Qed.

(** The coercion statement of [reset]. *)
Lemma run_compress c h :
  (do name <- read (fun it => TableCompressName (Feature it));
   if negb (String.eqb name "snappy") then assign (set_TableCompressName "none")
   else skip) (c, h)
  = (tt, (set_TableCompressName (normal_compress (TableCompressName (Feature c))) c, h)).
Proof.
  cbv beta iota delta [bind read assign skip ret fst snd normal_compress].
  destruct (String.eqb (TableCompressName (Feature c)) "snappy") eqn:E; cbn [negb].
  - apply String.eqb_eq in E. rewrite <- E.
    now destruct c as [st sv p [wm wl n] cl e].
  - reflexivity.
Qed.

Section ResetProperties.

Variable ReadFile : string -> option string.
Variable TrimSpace : string -> string.

Lemma materialize_not_written file data :
  is_written ReadFile file data = false -> materialize ReadFile TrimSpace file data = data.
Proof.
  unfold is_written, materialize.
  destruct (wants_read file data); [|reflexivity].
  now destruct (ReadFile file).
Qed.

(** The statement of [reset] that fills [ServerKeyData]. *)
Lemma run_key l c h :
  (do t <- deref l;
   if negb (String.eqb (ServerKeyFile t) "") && String.eqb (ServerKeyData t) "" then
     match ReadFile (ServerKeyFile t) with
     | Some bs => assign_at l (set_ServerKeyData (TrimSpace bs))
     | None => skip
     end
   else skip) (c, h)
  = (tt, (c,
      let t := load h l in
      if is_written ReadFile (ServerKeyFile t) (ServerKeyData t)
      then store l (set_ServerKeyData (materialize ReadFile TrimSpace (ServerKeyFile t) (ServerKeyData t)) t) h
      else h)).
Proof.
  cbv beta iota zeta delta
    [bind deref assign_at skip ret fst snd
     is_written materialize wants_read].
  destruct (negb (String.eqb (ServerKeyFile (load h l)) "")
            && String.eqb (ServerKeyData (load h l)) ""); [|reflexivity].
  now destruct (ReadFile (ServerKeyFile (load h l))).
Qed.

(** The statement of [reset] that fills [ServerCertData]. *)
Lemma run_cert l c h :
  (do t <- deref l;
   if negb (String.eqb (ServerCertFile t) "") && String.eqb (ServerCertData t) "" then
     match ReadFile (ServerCertFile t) with
     | Some bs => assign_at l (set_ServerCertData (TrimSpace bs))
     | None => skip
     end
   else skip) (c, h)
  = (tt, (c,
      let t := load h l in
      if is_written ReadFile (ServerCertFile t) (ServerCertData t)
      then store l (set_ServerCertData (materialize ReadFile TrimSpace (ServerCertFile t) (ServerCertData t)) t) h
      else h)).
Proof.
  cbv beta iota zeta delta
    [bind deref assign_at skip ret fst snd
     is_written materialize wants_read].
  destruct (negb (String.eqb (ServerCertFile (load h l)) "")
            && String.eqb (ServerCertData (load h l)) ""); [|reflexivity].
  now destruct (ReadFile (ServerCertFile (load h l))).
Qed.

Lemma load_store l t (h : Store) : load (store l t h) l = t.
Proof. unfold load, store. now rewrite lookup_insert_eq. Qed.

Lemma store_store l t t' (h : Store) : store l t' (store l t h) = store l t' h.
Proof. unfold store. apply insert_insert_eq. Qed.

(** [reset] computes the closed form. *)
Lemma reset_run c h :
  reset ReadFile TrimSpace (c, h) = (tt, (normal_config c, normal_store ReadFile TrimSpace c h)).
Proof.
  unfold reset.
  erewrite run_bind by (apply run_clamp; [lia | now destruct c as [? ? [] ? ? ?]]).
  erewrite run_bind by (apply run_clamp; [lia | now destruct c as [? ? [] ? ? ?]]).
  erewrite run_bind by (apply run_clamp; [lia | now destruct c as [? ? [] ? ? ?]]).
  erewrite run_bind by (apply run_clamp; [lia | now destruct c as [? ? [] ? ? ?]]).
  erewrite run_bind by apply run_compress.
  match goal with |- _ (?c', h) = _ => replace c' with (normal_config c) end.
  2:{ now destruct c as [st sv [w b t o] [wm wl n] cl e]. }
  erewrite run_bind by reflexivity. cbn [fst].
  unfold normal_store.
  change (AuthTLSCert (Server (normal_config c))) with (AuthTLSCert (Server c)).
  destruct (AuthTLSCert (Server c)) as [l|]; [|reflexivity].
  erewrite run_bind by apply run_key.
  rewrite run_cert. cbv zeta.
  f_equal. f_equal.
  destruct (load h l) as [kf kd cf cd] eqn:Ht.
  cbn [ServerKeyFile ServerKeyData ServerCertFile ServerCertData].
  destruct (is_written ReadFile kf kd) eqn:Hk;
    rewrite ?load_store;
    cbn [set_ServerKeyData ServerKeyFile ServerKeyData ServerCertFile ServerCertData orb];
    rewrite ?Ht;
    cbn [ServerKeyFile ServerKeyData ServerCertFile ServerCertData];
    destruct (is_written ReadFile cf cd) eqn:Hc;
    unfold normal_cert;
    cbn [set_ServerCertData ServerKeyFile ServerKeyData ServerCertFile ServerCertData];
    rewrite ?store_store;
    rewrite ?(materialize_not_written _ _ Hk), ?(materialize_not_written _ _ Hc);
    reflexivity.
Qed.

(** [reset] keeps every field of the receiver but the four bounded
    integers and the compression name. *)
Lemma reset_receiver c h : fst (snd (reset ReadFile TrimSpace (c, h))) = normal_config c.
Proof. now rewrite reset_run. Qed.

Lemma reset_store c h : snd (snd (reset ReadFile TrimSpace (c, h))) = normal_store ReadFile TrimSpace c h.
Proof. now rewrite reset_run. Qed.

(** C3: after [reset] each of the four [Performance] fields is the
    clamp of its input into its interval: [4,128], [8,4096], [8,64]
    and [500,10000].  [reset] has no error result: no input is
    rejected. *)
Theorem reset_clamps (s : State) :
  WriteBufferSize (Performance (fst (snd (reset ReadFile TrimSpace s))))
    = clamp (WriteBufferSize (Performance (fst s))) 4 128 /\
  BlockCacheSize (Performance (fst (snd (reset ReadFile TrimSpace s))))
    = clamp (BlockCacheSize (Performance (fst s))) 8 4096 /\
  MaxTableSize (Performance (fst (snd (reset ReadFile TrimSpace s))))
    = clamp (MaxTableSize (Performance (fst s))) 8 64 /\
  MaxOpenFiles (Performance (fst (snd (reset ReadFile TrimSpace s))))
    = clamp (MaxOpenFiles (Performance (fst s))) 500 10000.
Proof.
  destruct s as [c h]. rewrite reset_receiver. cbn [fst].
  repeat split; reflexivity.
Qed.

(** C7: after [reset] the compression name is "snappy" when the input
    was exactly "snappy", and "none" for every other input. *)
Theorem reset_compress_name (s : State) :
  (TableCompressName (Feature (fst s)) = "snappy" /\
   TableCompressName (Feature (fst (snd (reset ReadFile TrimSpace s)))) = "snappy")
  \/
  (TableCompressName (Feature (fst s)) <> "snappy" /\
   TableCompressName (Feature (fst (snd (reset ReadFile TrimSpace s)))) = "none").
Proof.
  destruct s as [c h]. rewrite reset_receiver.
  cbn [fst normal_config Feature normal_feature TableCompressName].
  unfold normal_compress.
  destruct (String.eqb (TableCompressName (Feature c)) "snappy") eqn:E.
  - apply String.eqb_eq in E. now left.
  - apply String.eqb_neq in E. now right.
Qed.

Lemma materialize_idem file data :
  materialize ReadFile TrimSpace file (materialize ReadFile TrimSpace file data) = materialize ReadFile TrimSpace file data.
Proof.
  unfold materialize.
  destruct (wants_read file data) eqn:W.
  - destruct (ReadFile file) as [bs|] eqn:R.
    + now destruct (wants_read file (TrimSpace bs)).
    + now rewrite W.
  - now rewrite W.
Qed.

Lemma normal_cert_idem t : normal_cert ReadFile TrimSpace (normal_cert ReadFile TrimSpace t) = normal_cert ReadFile TrimSpace t.
Proof.
  unfold normal_cert.
  cbn [ServerKeyFile ServerKeyData ServerCertFile ServerCertData].
  now rewrite !materialize_idem.
Qed.

Lemma normal_cert_not_written t :
  is_written ReadFile (ServerKeyFile t) (ServerKeyData t) = false ->
  is_written ReadFile (ServerCertFile t) (ServerCertData t) = false ->
  normal_cert ReadFile TrimSpace t = t.
Proof.
  intros Hk Hc. unfold normal_cert.
  rewrite (materialize_not_written _ _ Hk), (materialize_not_written _ _ Hc).
  now destruct t.
Qed.

Lemma normal_config_idem c : normal_config (normal_config c) = normal_config c.
Proof.
  unfold normal_config, normal_performance, normal_feature.
  cbn [Storage Server Performance Feature Cluster ClientConnectEnable
       WriteBufferSize BlockCacheSize MaxTableSize MaxOpenFiles
       WriteMetaDisable WriteLogDisable TableCompressName].
  rewrite !clamp_idem by lia. now rewrite normal_compress_idem.
Qed.

Lemma normal_store_idem c h :
  normal_store ReadFile TrimSpace (normal_config c) (normal_store ReadFile TrimSpace c h) = normal_store ReadFile TrimSpace c h.
Proof.
  unfold normal_store.
  change (AuthTLSCert (Server (normal_config c))) with (AuthTLSCert (Server c)).
  destruct (AuthTLSCert (Server c)) as [l|]; [|reflexivity].
  cbv zeta.
  destruct (is_written ReadFile (ServerKeyFile (load h l)) (ServerKeyData (load h l))
            || is_written ReadFile (ServerCertFile (load h l)) (ServerCertData (load h l)))
    eqn:W.
  - rewrite load_store, normal_cert_idem, store_store.
    clear W. now destruct (_ || _).
  - now rewrite W.
Qed.

(** C6: on a fixed file system, running [reset] on the result of
    [reset] changes nothing. *)
Theorem reset_idempotent (s : State) :
  reset ReadFile TrimSpace (snd (reset ReadFile TrimSpace s)) = reset ReadFile TrimSpace s.
Proof.
  destruct s as [c h]. rewrite (reset_run c h). cbn [snd].
  rewrite reset_run.
  now rewrite normal_config_idem, normal_store_idem.
Qed.

(** *** Best-effort TLS material *)

Lemma wants_read_true file data :
  wants_read file data = true <-> file <> "" /\ data = "".
Proof.
  unfold wants_read. rewrite andb_true_iff, negb_true_iff.
  rewrite String.eqb_neq, String.eqb_eq. reflexivity.
Qed.

Lemma materialize_changed file data :
  materialize ReadFile TrimSpace file data <> data -> file <> "" /\ data = "".
Proof.
  unfold materialize. intros Hne.
  destruct (wants_read file data) eqn:W; [|congruence].
  now apply wants_read_true.
Qed.

Lemma materialize_kept file data :
  data <> "" -> materialize ReadFile TrimSpace file data = data.
Proof.
  intros Hdata. unfold materialize.
  destruct (wants_read file data) eqn:W; [|reflexivity].
  apply wants_read_true in W. tauto.
Qed.

Lemma materialize_read_failure file data :
  ReadFile file = None -> materialize ReadFile TrimSpace file data = data.
Proof.
  intros Hread. unfold materialize. rewrite Hread.
  now destruct (wants_read file data).
Qed.

Lemma materialize_read_success file data bs :
  file <> "" -> data = "" -> ReadFile file = Some bs ->
  materialize ReadFile TrimSpace file data = TrimSpace bs.
Proof.
  intros Hfile Hdata Hread. unfold materialize. rewrite Hread.
  now rewrite (proj2 (wants_read_true file data) (conj Hfile Hdata)).
Qed.

Lemma load_normal_store c h l :
  AuthTLSCert (Server c) = Some l ->
  load (normal_store ReadFile TrimSpace c h) l = normal_cert ReadFile TrimSpace (load h l).
Proof.
  intros Hl. unfold normal_store. rewrite Hl. cbv zeta.
  destruct (is_written ReadFile (ServerKeyFile (load h l)) (ServerKeyData (load h l))) eqn:Hk;
    cbn [orb]; [apply load_store|].
  destruct (is_written ReadFile (ServerCertFile (load h l)) (ServerCertData (load h l))) eqn:Hc;
    [apply load_store|].
  symmetry. now apply normal_cert_not_written.
Qed.

Lemma lookup_normal_store c h l l' :
  AuthTLSCert (Server c) = Some l -> l' <> l ->
  normal_store ReadFile TrimSpace c h !! l' = h !! l'.
Proof.
  intros Hl Hne. unfold normal_store. rewrite Hl. cbv zeta.
  destruct (_ || _); [|reflexivity].
  unfold store. now rewrite lookup_insert_ne by congruence.
Qed.

(** Without a certificate, [reset] leaves the store alone. *)
Lemma reset_no_cert c h :
  AuthTLSCert (Server c) = None ->
  snd (snd (reset ReadFile TrimSpace (c, h))) = h.
Proof.
  intros Hnil. rewrite reset_store. unfold normal_store. now rewrite Hnil.
Qed.

(** C8: [reset] changes a TLS data field only when its path field is
    set and the data field is empty; a data field that is set is kept;
    when the file cannot be read the data field stays empty, and
    [reset] has no error result.  The path fields, every other
    certificate of the store and the receiver's pointer are kept. *)
Theorem reset_tls_best_effort (s : State) (l : loc) :
  AuthTLSCert (Server (fst s)) = Some l ->
  let t := load (snd s) l in
  let t' := load (snd (snd (reset ReadFile TrimSpace s))) l in
  AuthTLSCert (Server (fst (snd (reset ReadFile TrimSpace s)))) = Some l /\
  ServerKeyFile t' = ServerKeyFile t /\
  ServerCertFile t' = ServerCertFile t /\
  (ServerKeyData t' <> ServerKeyData t ->
     ServerKeyFile t <> "" /\ ServerKeyData t = "") /\
  (ServerCertData t' <> ServerCertData t ->
     ServerCertFile t <> "" /\ ServerCertData t = "") /\
  (ServerKeyData t <> "" -> ServerKeyData t' = ServerKeyData t) /\
  (ServerCertData t <> "" -> ServerCertData t' = ServerCertData t) /\
  (ServerKeyFile t <> "" -> ServerKeyData t = "" ->
     ReadFile (ServerKeyFile t) = None -> ServerKeyData t' = "") /\
  (ServerCertFile t <> "" -> ServerCertData t = "" ->
     ReadFile (ServerCertFile t) = None -> ServerCertData t' = "") /\
  (forall bs, ServerKeyFile t <> "" -> ServerKeyData t = "" ->
     ReadFile (ServerKeyFile t) = Some bs -> ServerKeyData t' = TrimSpace bs) /\
  (forall bs, ServerCertFile t <> "" -> ServerCertData t = "" ->
     ReadFile (ServerCertFile t) = Some bs -> ServerCertData t' = TrimSpace bs) /\
  (forall l', l' <> l ->
     snd (snd (reset ReadFile TrimSpace s)) !! l' = snd s !! l').
Proof.
  destruct s as [c h]. cbn [fst snd]. intros Hl. cbv zeta.
  rewrite reset_receiver, reset_store, load_normal_store by exact Hl.
  unfold normal_cert.
  cbn [ServerKeyFile ServerKeyData ServerCertFile ServerCertData
       normal_config Server].
  split; [exact Hl|].
  split; [reflexivity|].
  split; [reflexivity|].
  split; [apply materialize_changed|].
  split; [apply materialize_changed|].
  split; [apply materialize_kept|].
  split; [apply materialize_kept|].
  split; [intros _ Hd Hr; now rewrite materialize_read_failure|].
  split; [intros _ Hd Hr; now rewrite materialize_read_failure|].
  split; [intros bs; apply materialize_read_success|].
  split; [intros bs; apply materialize_read_success|].
  intros l' Hne. exact (lookup_normal_store c h l l' Hl Hne).
Qed.

End ResetProperties.

(** ** Option parsing *)

(** An optional assignment of [ConfigParse]. *)
Lemma run_option_assign (o : option OptValue) (f : OptValue -> Config -> Config) c h :
  (match o with
   | Some v => assign (f v)
   | None => skip
   end) (c, h)
  = (tt, (match o with Some v => f v c | None => c end, h)).
Proof. now destruct o. Qed.

(** A feature flag of [ConfigParse]. *)
Lemma run_flag (o : option OptValue) (f : Config -> Config) c h :
  (match o with
   | Some v => if String.eqb (Value_String v) "true" then assign f else skip
   | None => skip
   end) (c, h)
  = (tt, (if flag_of o then f c else c, h)).
Proof.
  destruct o as [v|]; [|reflexivity].
  cbn [flag_of]. now destruct (String.eqb (Value_String v) "true").
Qed.

Lemma flag_of_true (o : option OptValue) :
  flag_of o = true <-> exists v, o = Some v /\ Value_String v = "true".
Proof.
  destruct o as [v|]; cbn [flag_of].
  - rewrite String.eqb_eq. split.
    + intros Hv. now exists v.
    + intros [w [Hw Hv]]. congruence.
  - split; [discriminate|]. now intros [w [Hw _]].
Qed.

Section ParseProperties.

Variable ReadFile : string -> option string.
Variable TrimSpace : string -> string.
Variable Clean : string -> string.

(** The statements of [ConfigParse] after the directory is resolved. *)
Lemma ConfigParse_finish opts dir h :
  ((match Get (Items opts) "server/bind" with
    | Some v => assign (set_Bind (Value_String v))
    | None => skip
    end) ;;
   (match Get (Items opts) "performance/write_buffer_size" with
    | Some v => assign (set_WriteBufferSize (Value_Int v))
    | None => skip
    end) ;;
   (match Get (Items opts) "performance/block_cache_size" with
    | Some v => assign (set_BlockCacheSize (Value_Int v))
    | None => skip
    end) ;;
   (match Get (Items opts) "performance/max_open_files" with
    | Some v => assign (set_MaxOpenFiles (Value_Int v))
    | None => skip
    end) ;;
   (match Get (Items opts) "performance/max_table_size" with
    | Some v => assign (set_MaxTableSize (Value_Int v))
    | None => skip
    end) ;;
   (match Get (Items opts) "feature/write_meta_disable" with
    | Some v =>
        if String.eqb (Value_String v) "true" then assign (set_WriteMetaDisable true)
        else skip
    | None => skip
    end) ;;
   (match Get (Items opts) "feature/write_log_disable" with
    | Some v =>
        if String.eqb (Value_String v) "true" then assign (set_WriteLogDisable true)
        else skip
    | None => skip
    end) ;;
   reset ReadFile TrimSpace) (set_DataDirectory dir zeroConfig, h)
  = (tt, (normal_config (parsed_draft opts dir), h)).
Proof.
  do 5 (erewrite run_bind by apply run_option_assign).
  do 2 (erewrite run_bind by apply run_flag).
  rewrite reset_run.
  unfold parsed_draft. cbv zeta.
  destruct (Get (Items opts) "server/bind");
    destruct (Get (Items opts) "performance/write_buffer_size");
    destruct (Get (Items opts) "performance/block_cache_size");
    destruct (Get (Items opts) "performance/max_open_files");
    destruct (Get (Items opts) "performance/max_table_size");
    destruct (flag_of (Get (Items opts) "feature/write_meta_disable"));
    destruct (flag_of (Get (Items opts) "feature/write_log_disable"));
    reflexivity.
Qed.

(** [ConfigParse] computes the closed form and leaves the store alone. *)
Lemma ConfigParse_run opts h :
  ConfigParse ReadFile TrimSpace Clean opts h =
    match resolved_directory Clean opts with
    | Some dir => ((Some (normal_config (parsed_draft opts dir)), None), h)
    | None => ((None, Some "No storage/data_directory Found"), h)
    end.
Proof.
  unfold ConfigParse, resolved_directory. cbv zeta.
  destruct (Get (Items opts) "storage/data_directory") as [v|].
  - now rewrite ConfigParse_finish.
  - destruct (Get (Items opts) "data_dir") as [v|]; [|reflexivity].
    now rewrite ConfigParse_finish.
Qed.

Lemma ConfigParse_success opts h cfg :
  fst (ConfigParse ReadFile TrimSpace Clean opts h) = (Some cfg, None) ->
  exists dir, resolved_directory Clean opts = Some dir /\
              cfg = normal_config (parsed_draft opts dir).
Proof.
  rewrite ConfigParse_run.
  destruct (resolved_directory Clean opts) as [dir|]; cbn [fst]; [|discriminate].
  intros H. exists dir. split; [reflexivity|]. congruence.
Qed.

(** C5: the data directory is resolved with a fixed precedence:
    "storage/data_directory" wins when present, "data_dir" is used
    when it alone is present (either value passes through
    [filepath.Clean]), and with neither key [ConfigParse] returns no
    [Config] and the error "No storage/data_directory Found". *)
Theorem ConfigParse_data_directory (opts : ConnOptions) (h : Store) :
  match Get (Items opts) "storage/data_directory", Get (Items opts) "data_dir" with
  | Some v, _ =>
      exists cfg,
        ConfigParse ReadFile TrimSpace Clean opts h = ((Some cfg, None), h) /\
        DataDirectory (Storage cfg) = Clean (Value_String v)
  | None, Some v =>
      exists cfg,
        ConfigParse ReadFile TrimSpace Clean opts h = ((Some cfg, None), h) /\
        DataDirectory (Storage cfg) = Clean (Value_String v)
  | None, None =>
      ConfigParse ReadFile TrimSpace Clean opts h
      = ((None, Some "No storage/data_directory Found"), h)
  end.
Proof.
  rewrite ConfigParse_run. unfold resolved_directory.
  destruct (Get (Items opts) "storage/data_directory") as [v|].
  - eexists. split; reflexivity.
  - destruct (Get (Items opts) "data_dir") as [v|]; [|reflexivity].
    eexists. split; reflexivity.
Qed.

(** C9: [WriteMetaDisable] and [WriteLogDisable] are set exactly when
    the option is present and its text is the literal "true". *)
Theorem ConfigParse_flags (opts : ConnOptions) (h : Store) (cfg : Config) :
  fst (ConfigParse ReadFile TrimSpace Clean opts h) = (Some cfg, None) ->
  (WriteMetaDisable (Feature cfg) = true <->
     exists v, Get (Items opts) "feature/write_meta_disable" = Some v /\
               Value_String v = "true") /\
  (WriteLogDisable (Feature cfg) = true <->
     exists v, Get (Items opts) "feature/write_log_disable" = Some v /\
               Value_String v = "true").
Proof.
  intros Hok. destruct (ConfigParse_success _ _ _ Hok) as [dir [_ ->]].
  cbn [normal_config parsed_draft Feature normal_feature
       WriteMetaDisable WriteLogDisable].
  split; apply flag_of_true.
Qed.

(** C10: a parsed [Config] has no master; once [ClientConnectEnable]
    is set on it, [Valid] returns the error "no cluster/masters setup". *)
Theorem ConfigParse_no_masters (opts : ConnOptions) (h : Store) (cfg : Config) :
  fst (ConfigParse ReadFile TrimSpace Clean opts h) = (Some cfg, None) ->
  Masters (Cluster cfg) = [] /\
  forall h' : Store,
    fst (Valid (set_ClientConnectEnable true cfg, h'))
    = Some "no cluster/masters setup".
Proof.
  intros Hok. destruct (ConfigParse_success _ _ _ Hok) as [dir [_ ->]].
  split; [reflexivity|].
  intros h'. now rewrite Valid_run.
Qed.

End ParseProperties.

(** ** The properties on the sample inputs *)

Lemma reset_tls_best_effort_witness :
  AuthTLSCert (Server (fst sample_state)) = Some 1%positive /\
  ServerKeyData
    (load (snd (snd (reset sample_ReadFile sample_TrimSpace sample_state))) 1%positive)
  = "KEY" /\
  ServerCertData
    (load (snd (snd (reset sample_ReadFile sample_TrimSpace sample_state))) 1%positive)
  = "".
Proof.
  pose proof (reset_tls_best_effort sample_ReadFile sample_TrimSpace
                sample_state 1%positive eq_refl) as H.
  cbv zeta in H.
  destruct H as (_ & _ & _ & _ & _ & _ & _ & _ & Hfail & Hkey & _ & _).
  split; [reflexivity|]. split.
  - etransitivity; [apply (Hkey "  KEY  ")|]; try reflexivity. discriminate.
  - apply Hfail; try reflexivity. discriminate.
Defined.

Lemma ConfigParse_flags_witness :
  fst (ConfigParse sample_ReadFile sample_TrimSpace sample_Clean sample_options ∅)
  = (Some sample_parsed, None) /\
  (WriteMetaDisable (Feature sample_parsed) = true <->
     exists v, Get (Items sample_options) "feature/write_meta_disable" = Some v /\
               Value_String v = "true") /\
  (WriteLogDisable (Feature sample_parsed) = true <->
     exists v, Get (Items sample_options) "feature/write_log_disable" = Some v /\
               Value_String v = "true").
Proof.
  split; [reflexivity|].
  apply (ConfigParse_flags sample_ReadFile sample_TrimSpace sample_Clean
           sample_options ∅ sample_parsed).
  reflexivity.
Defined.

Lemma ConfigParse_no_masters_witness :
  fst (ConfigParse sample_ReadFile sample_TrimSpace sample_Clean sample_options ∅)
  = (Some sample_parsed, None) /\
  Masters (Cluster sample_parsed) = [] /\
  forall h' : Store,
    fst (Valid (set_ClientConnectEnable true sample_parsed, h'))
    = Some "no cluster/masters setup".
Proof.
  split; [reflexivity|].
  apply (ConfigParse_no_masters sample_ReadFile sample_TrimSpace sample_Clean
           sample_options ∅ sample_parsed).
  reflexivity.
Defined.

(** The clamps, the coercion and the key file on the sample state. *)
Example reset_sample :
  snd (reset sample_ReadFile sample_TrimSpace sample_state)
  = (mkConfig (mkConfigStorage "/data")
              (mkConfigServer "127.0.0.1:9100" "" (Some 1%positive))
              (mkConfigPerformance 4 4096 16 10000)
              (mkConfigFeature false false "none")
              (mkConfigCluster [])
              false,
     {[ 1%positive :=
          mkConfigTLSCertificate "/etc/kvgo/server.key" "KEY" "/etc/kvgo/server.crt" "" ]}).
Proof. reflexivity. Qed.

(** The compression names of the specification. *)
Example compress_names :
  map normal_compress ["snappy"; ""; "Snappy"; "gzip"; "SNAPPY"]
  = ["snappy"; "none"; "none"; "none"; "none"].
Proof. reflexivity. Qed.

(** Texts that do not set a feature flag. *)
Example flag_texts :
  map (fun s => flag_of (Some (text s))) ["true"; "1"; "True"; "TRUE"; ""]
  = [true; false; false; false; false].
Proof. reflexivity. Qed.

(** The parsing examples of the specification. *)
Example ConfigParse_only_directory :
  fst (ConfigParse sample_ReadFile sample_TrimSpace sample_Clean
         (options_of [("storage/data_directory", text "/data")]) ∅)
  = (Some (mkConfig (mkConfigStorage "/data")
                    (mkConfigServer "" "" None)
                    (mkConfigPerformance 4 8 8 500)
                    (mkConfigFeature false false "none")
                    (mkConfigCluster [])
                    false),
     None).
Proof. reflexivity. Qed.

Example ConfigParse_alias_only :
  fst (ConfigParse sample_ReadFile sample_TrimSpace sample_Clean
         (options_of [("data_dir", text "/b")]) ∅)
  = (Some (mkConfig (mkConfigStorage "/b")
                    (mkConfigServer "" "" None)
                    (mkConfigPerformance 4 8 8 500)
                    (mkConfigFeature false false "none")
                    (mkConfigCluster [])
                    false),
     None).
Proof. reflexivity. Qed.

Example ConfigParse_missing_directory :
  fst (ConfigParse sample_ReadFile sample_TrimSpace sample_Clean
         (options_of [("server/bind", text "127.0.0.1:9100")]) ∅)
  = (None, Some "No storage/data_directory Found").
Proof. reflexivity. Qed.

(** * Further properties of the code *)

(** ** Lookup of a master by address *)

Lemma Master_range_skip (pre : list ConfigClusterMaster)
    (rest : list (option ConfigClusterMaster)) (addr : string) :
  Forall (fun u => Master_Addr u <> addr) pre ->
  Master_range (map Some pre ++ rest) addr = Master_range rest addr.
Proof.
  induction 1 as [|u pre Hu _ IH]; [reflexivity|].
  cbn [map app Master_range].
  replace (String.eqb addr (Master_Addr u)) with false; [exact IH|].
  symmetry. apply String.eqb_neq. congruence.
Qed.

(** X1: [Master] returns the entry [v] exactly when [v] is the first
    entry of the list with the address asked for, every entry before it
    being a non-nil master with another address; what follows [v] is
    not looked at. *)
Theorem Master_returns_first_match (it : ConfigCluster) (addr : string)
    (v : ConfigClusterMaster) :
  Master it addr = Ret (Some v) <->
  exists pre rest,
    Masters it = map Some pre ++ Some v :: rest /\
    Forall (fun u => Master_Addr u <> addr) pre /\
    Master_Addr v = addr.
Proof.
  unfold Master. split.
  - induction (Masters it) as [|[u|] ms IH]; cbn [Master_range]; [discriminate| |discriminate].
    destruct (String.eqb addr (Master_Addr u)) eqn:E.
    + intros [= ->]. apply String.eqb_eq in E.
      exists [], ms. repeat split; [constructor | congruence].
    + intros Hms. apply String.eqb_neq in E.
      destruct (IH Hms) as (pre & rest & -> & Hpre & Hv).
      exists (u :: pre), rest. repeat split; [|exact Hv].
      constructor; [congruence | exact Hpre].
  - intros (pre & rest & -> & Hpre & Hv).
    rewrite Master_range_skip by exact Hpre.
    cbn [Master_range]. rewrite <- Hv. now rewrite String.eqb_refl.
Qed.

(** X2: [Master] returns [nil] exactly when every entry of the list is a
    non-nil master with another address (in particular on the empty
    list). *)
Theorem Master_returns_nil (it : ConfigCluster) (addr : string) :
  Master it addr = Ret None <->
  Forall (fun e => exists u, e = Some u /\ Master_Addr u <> addr) (Masters it).
Proof.
  unfold Master. induction (Masters it) as [|[u|] ms IH]; cbn [Master_range].
  - split; [constructor | reflexivity].
  - destruct (String.eqb addr (Master_Addr u)) eqn:E.
    + apply String.eqb_eq in E. split; [discriminate|].
      intros H. inversion H as [|? ? (w & [= ->] & Hw) _]. congruence.
    + apply String.eqb_neq in E. rewrite IH. split.
      * intros H. constructor; [|exact H]. exists u. split; [reflexivity | congruence].
      * intros H. now inversion H.
  - split; [discriminate|].
    intros H. inversion H as [|? ? (w & Hw & _) _]. discriminate.
Qed.


(** ** Selection on a non-empty master list *)

Lemma rotation_Permutation {A} (ms : list A) (offset : nat) :
  rotation offset ms ≡ₚ ms.
Proof.
  unfold rotation. rewrite Permutation_app_comm. now rewrite take_drop.
Qed.

Lemma length_rotation {A} (ms : list A) (offset : nat) :
  length (rotation offset ms) = length ms.
Proof. now rewrite rotation_Permutation. Qed.

(** On a non-empty list the draw succeeds and the result is a prefix of
    the rotation at the drawn offset, whatever the cap. *)
Lemma randMasters_nonempty fuel r it cap :
  Masters it <> [] ->
  len (Masters it) <= int_max ->
  (length (Masters it) <= fuel)%nat ->
  exists offset,
    Intn r (len (Masters it)) = Ret offset /\
    0 <= offset < len (Masters it) /\
    randMasters fuel r it cap =
      Ret (take (Z.to_nat (cap + 1)) (rotation (Z.to_nat offset) (Masters it))).
Proof.
  intros Hne Hmax Hfuel.
  assert (Hpos : 0 < len (Masters it)).
  { unfold len. destruct (Masters it); [congruence | cbn [length]; lia]. }
  destruct (Intn_in_range r _ Hpos) as [offset [Hdraw Hoff]].
  exists offset. repeat split; try assumption; try lia.
  now apply randMasters_run.
Qed.

(** X4: with a negative cap [randMasters] selects no master: the loop
    condition [len(ls) <= cap] fails before the first append. *)
Theorem randMasters_negative_cap_selects_nothing (fuel : nat) (r : Z)
    (it : ConfigCluster) (cap : Z) :
  Masters it <> [] ->
  cap < 0 ->
  len (Masters it) <= int_max ->
  (length (Masters it) <= fuel)%nat ->
  randMasters fuel r it cap = Ret [].
Proof.
  intros Hne Hcap Hmax Hfuel.
  destruct (randMasters_nonempty fuel r it cap Hne Hmax Hfuel) as (offset & _ & _ & ->).
  replace (Z.to_nat (cap + 1)) with 0%nat by lia.
  now rewrite take_0.
Qed.

(** X5: with a cap of at least [len(masters) - 1] every master is
    selected once: the result is the whole rotation, a permutation of
    the master list. *)
Theorem randMasters_large_cap_selects_all (fuel : nat) (r : Z)
    (it : ConfigCluster) (cap : Z) :
  Masters it <> [] ->
  len (Masters it) - 1 <= cap ->
  len (Masters it) <= int_max ->
  (length (Masters it) <= fuel)%nat ->
  exists ls,
    randMasters fuel r it cap = Ret ls /\
    ls ≡ₚ Masters it.
Proof.
  intros Hne Hcap Hmax Hfuel.
  destruct (randMasters_nonempty fuel r it cap Hne Hmax Hfuel) as (offset & _ & _ & ->).
  eexists. split; [reflexivity|].
  rewrite take_ge by (rewrite length_rotation; unfold len in Hcap; lia).
  apply rotation_Permutation.
Qed.

(** X6: whatever the cap, [randMasters] selects entries of the master
    list only, and no entry more often than the list holds it: with
    pairwise distinct entries the result has no duplicate. *)
Theorem randMasters_selects_without_repetition (fuel : nat) (r : Z)
    (it : ConfigCluster) (cap : Z) :
  Masters it <> [] ->
  len (Masters it) <= int_max ->
  (length (Masters it) <= fuel)%nat ->
  exists ls,
    randMasters fuel r it cap = Ret ls /\
    ls ⊆+ Masters it /\
    (forall m, m ∈ ls -> m ∈ Masters it) /\
    (NoDup (Masters it) -> NoDup ls).
Proof.
  intros Hne Hmax Hfuel.
  destruct (randMasters_nonempty fuel r it cap Hne Hmax Hfuel) as (offset & _ & _ & ->).
  eexists. split; [reflexivity|].
  assert (Hsub : take (Z.to_nat (cap + 1)) (rotation (Z.to_nat offset) (Masters it))
                 ⊆+ Masters it).
  { rewrite <- (rotation_Permutation (Masters it) (Z.to_nat offset)) at 2.
    apply sublist_submseteq, sublist_take. }
  split; [exact Hsub|]. split.
  - intros m Hm. exact (elem_of_submseteq _ _ _ Hm Hsub).
  - intros Hnd.
    apply (sublist_NoDup _ (rotation (Z.to_nat offset) (Masters it)));
      [now rewrite rotation_Permutation | apply sublist_take].
Qed.

(** X7: for a cap [>= 0], entry [j] of the result is entry
    [(offset + j) mod len(masters)] of the master list: the selection
    walks the list from the drawn offset and wraps to index 0 at its
    end.  In particular the first entry is the master at the offset. *)
Theorem randMasters_entry (fuel : nat) (r : Z) (it : ConfigCluster) (cap : Z) :
  Masters it <> [] ->
  0 <= cap ->
  len (Masters it) <= int_max ->
  (length (Masters it) <= fuel)%nat ->
  exists offset ls,
    Intn r (len (Masters it)) = Ret offset /\
    randMasters fuel r it cap = Ret ls /\
    ls !! 0%nat = Masters it !! Z.to_nat offset /\
    forall j : nat,
      Z.of_nat j < Z.min (len (Masters it)) (cap + 1) ->
      ls !! j = Masters it !! ((Z.to_nat offset + j) mod length (Masters it))%nat.
Proof.
  intros Hne Hcap Hmax Hfuel.
  destruct (randMasters_nonempty fuel r it cap Hne Hmax Hfuel)
    as (offset & Hdraw & Hoff & ->).
  exists offset. eexists. split; [exact Hdraw|]. split; [reflexivity|].
  unfold len in *.
  assert (Hentry : forall j : nat,
    Z.of_nat j < Z.min (Z.of_nat (length (Masters it))) (cap + 1) ->
    take (Z.to_nat (cap + 1)) (rotation (Z.to_nat offset) (Masters it)) !! j
    = Masters it !! ((Z.to_nat offset + j) mod length (Masters it))%nat).
  { intros j Hj.
    rewrite lookup_take_lt by lia.
    apply rotation_lookup; lia. }
  split; [|exact Hentry].
  rewrite Hentry by lia.
  rewrite Nat.add_0_r. now rewrite Nat.mod_small by lia.
Qed.

(** ** Normalisation: what it keeps and what it reads *)

Lemma normal_compress_fixed name :
  normal_compress name = name <-> name = "snappy" \/ name = "none".
Proof.
  unfold normal_compress.
  destruct (String.eqb name "snappy") eqn:E.
  - apply String.eqb_eq in E. split; [now left | congruence].
  - apply String.eqb_neq in E. split; [intros <-; now right|].
    intros [H|H]; congruence.
Qed.

Lemma clamp_fixed v lo hi : lo <= hi -> clamp v lo hi = v <-> lo <= v <= hi.
Proof. unfold clamp. lia. Qed.

(** X8: [reset] does not change the verdict of [Valid]. *)
Theorem Valid_after_reset (ReadFile : string -> option string)
    (TrimSpace : string -> string) (s : State) :
  fst (Valid (snd (reset ReadFile TrimSpace s))) = fst (Valid s).
Proof.
  destruct s as [c h]. rewrite reset_run. cbn [snd].
  now rewrite !Valid_run.
Qed.

(** X9: [reset] keeps the storage and server settings (the certificate
    pointer included), the cluster, [ClientConnectEnable] and the two
    feature flags. *)
Theorem reset_keeps_other_fields (ReadFile : string -> option string)
    (TrimSpace : string -> string) (s : State) :
  Storage (fst (snd (reset ReadFile TrimSpace s))) = Storage (fst s) /\
  Server (fst (snd (reset ReadFile TrimSpace s))) = Server (fst s) /\
  Cluster (fst (snd (reset ReadFile TrimSpace s))) = Cluster (fst s) /\
  ClientConnectEnable (fst (snd (reset ReadFile TrimSpace s)))
    = ClientConnectEnable (fst s) /\
  WriteMetaDisable (Feature (fst (snd (reset ReadFile TrimSpace s))))
    = WriteMetaDisable (Feature (fst s)) /\
  WriteLogDisable (Feature (fst (snd (reset ReadFile TrimSpace s))))
    = WriteLogDisable (Feature (fst s)).
Proof.
  destruct s as [c h]. rewrite reset_receiver. cbn [fst].
  repeat split; reflexivity.
Qed.

(** X10: after [reset] every bounded field lies in its interval and the
    compression name is one of "snappy" and "none". *)
Theorem reset_establishes_bounds (ReadFile : string -> option string)
    (TrimSpace : string -> string) (s : State) :
  4 <= WriteBufferSize (Performance (fst (snd (reset ReadFile TrimSpace s)))) <= 128 /\
  8 <= BlockCacheSize (Performance (fst (snd (reset ReadFile TrimSpace s)))) <= 4096 /\
  8 <= MaxTableSize (Performance (fst (snd (reset ReadFile TrimSpace s)))) <= 64 /\
  500 <= MaxOpenFiles (Performance (fst (snd (reset ReadFile TrimSpace s)))) <= 10000 /\
  (TableCompressName (Feature (fst (snd (reset ReadFile TrimSpace s)))) = "snappy" \/
   TableCompressName (Feature (fst (snd (reset ReadFile TrimSpace s)))) = "none").
Proof.
  destruct s as [c h]. rewrite reset_receiver.
  cbn [fst normal_config normal_performance normal_feature Performance Feature
       WriteBufferSize BlockCacheSize MaxTableSize MaxOpenFiles TableCompressName].
  repeat split; try (apply clamp_bounds; lia).
  unfold normal_compress.
  destruct (String.eqb (TableCompressName (Feature c)) "snappy"); [now left | now right].
Qed.

(** X11: [reset] leaves the receiver as it was exactly when the receiver
    is already normal: every bounded field in its interval and the
    compression name one of "snappy" and "none". *)
Theorem reset_receiver_unchanged_iff (ReadFile : string -> option string)
    (TrimSpace : string -> string) (s : State) :
  fst (snd (reset ReadFile TrimSpace s)) = fst s <->
  4 <= WriteBufferSize (Performance (fst s)) <= 128 /\
  8 <= BlockCacheSize (Performance (fst s)) <= 4096 /\
  8 <= MaxTableSize (Performance (fst s)) <= 64 /\
  500 <= MaxOpenFiles (Performance (fst s)) <= 10000 /\
  (TableCompressName (Feature (fst s)) = "snappy" \/
   TableCompressName (Feature (fst s)) = "none").
Proof.
  destruct s as [c h]. rewrite reset_receiver. cbn [fst].
  destruct c as [st sv [w b t o] [wm wl n] cl e].
  unfold normal_config, normal_performance, normal_feature.
  cbn [Performance Feature
       Storage Server Cluster ClientConnectEnable
       WriteBufferSize BlockCacheSize MaxTableSize MaxOpenFiles
       WriteMetaDisable WriteLogDisable TableCompressName].
  rewrite <- (clamp_fixed w 4 128), <- (clamp_fixed b 8 4096),
          <- (clamp_fixed t 8 64), <- (clamp_fixed o 500 10000) by lia.
  rewrite <- normal_compress_fixed.
  split.
  - intros H. injection H as Hw Hb Ht Ho Hn. repeat split; assumption.
  - intros (Hw & Hb & Ht & Ho & Hn). now rewrite Hw, Hb, Ht, Ho, Hn.
Qed.

Lemma is_written_data_set ReadFile file data :
  file = "" \/ data <> "" -> is_written ReadFile file data = false.
Proof.
  intros Hset. unfold is_written.
  destruct (wants_read file data) eqn:W; [|reflexivity].
  apply wants_read_true in W. tauto.
Qed.

(** X12: when the server has no certificate, or each data field of its
    certificate is already set or has no path, [reset] leaves the store
    as it was, and its result is the same on every file system: no file
    content reaches the configuration. *)
Theorem reset_without_file_content
    (ReadFile ReadFile' : string -> option string)
    (TrimSpace TrimSpace' : string -> string) (s : State) :
  match AuthTLSCert (Server (fst s)) with
  | None => True
  | Some l =>
      (ServerKeyFile (load (snd s) l) = "" \/ ServerKeyData (load (snd s) l) <> "") /\
      (ServerCertFile (load (snd s) l) = "" \/ ServerCertData (load (snd s) l) <> "")
  end ->
  snd (snd (reset ReadFile TrimSpace s)) = snd s /\
  reset ReadFile TrimSpace s = reset ReadFile' TrimSpace' s.
Proof.
  destruct s as [c h]. cbn [fst snd]. intros Hset.
  rewrite !reset_run. cbn [snd].
  assert (Hstore : forall R T, normal_store R T c h = h).
  { intros R T. unfold normal_store.
    destruct (AuthTLSCert (Server c)) as [l|]; [|reflexivity].
    destruct Hset as [Hk Hc]. cbv zeta.
    now rewrite (is_written_data_set R _ _ Hk), (is_written_data_set R _ _ Hc). }
  now rewrite !Hstore.
Qed.

(** X13: [reset] depends on the file system only through the two paths
    of the server's certificate: on two file systems that agree on
    [ServerKeyFile] and [ServerCertFile] it gives the same result. *)
Theorem reset_reads_configured_paths_only
    (ReadFile ReadFile' : string -> option string)
    (TrimSpace : string -> string) (s : State) (l : loc) :
  AuthTLSCert (Server (fst s)) = Some l ->
  ReadFile (ServerKeyFile (load (snd s) l)) = ReadFile' (ServerKeyFile (load (snd s) l)) ->
  ReadFile (ServerCertFile (load (snd s) l)) = ReadFile' (ServerCertFile (load (snd s) l)) ->
  reset ReadFile TrimSpace s = reset ReadFile' TrimSpace s.
Proof.
  destruct s as [c h]. cbn [fst snd]. intros Hl Hk Hc.
  rewrite !reset_run. do 2 f_equal.
  unfold normal_store, normal_cert, materialize, is_written.
  rewrite Hl. cbv zeta. now rewrite Hk, Hc.
Qed.

(** ** Parsing: what a parsed configuration looks like *)

Section FurtherParseProperties.

Variable ReadFile : string -> option string.
Variable TrimSpace : string -> string.
Variable Clean : string -> string.

(** X14: in a parsed [Config] each bounded field is the clamp of the
    integer of its option, and the floor of its interval when the
    option is absent. *)
Theorem ConfigParse_performance (opts : ConnOptions) (h : Store) (cfg : Config) :
  fst (ConfigParse ReadFile TrimSpace Clean opts h) = (Some cfg, None) ->
  WriteBufferSize (Performance cfg)
    = match Get (Items opts) "performance/write_buffer_size" with
      | Some v => clamp (Value_Int v) 4 128
      | None => 4
      end /\
  BlockCacheSize (Performance cfg)
    = match Get (Items opts) "performance/block_cache_size" with
      | Some v => clamp (Value_Int v) 8 4096
      | None => 8
      end /\
  MaxTableSize (Performance cfg)
    = match Get (Items opts) "performance/max_table_size" with
      | Some v => clamp (Value_Int v) 8 64
      | None => 8
      end /\
  MaxOpenFiles (Performance cfg)
    = match Get (Items opts) "performance/max_open_files" with
      | Some v => clamp (Value_Int v) 500 10000
      | None => 500
      end.
Proof.
  intros Hok. destruct (ConfigParse_success _ _ _ _ _ _ Hok) as [dir [_ ->]].
  unfold normal_config, normal_performance, parsed_draft.
  cbn [Performance WriteBufferSize BlockCacheSize MaxTableSize MaxOpenFiles].
  repeat split.
  - now destruct (Get (Items opts) "performance/write_buffer_size").
  - now destruct (Get (Items opts) "performance/block_cache_size").
  - now destruct (Get (Items opts) "performance/max_table_size").
  - now destruct (Get (Items opts) "performance/max_open_files").
Qed.

(** X15: in a parsed [Config] the bind address is the text of
    "server/bind" as given (empty when absent), and the fields no
    option reaches have fixed values: no auth secret, no certificate,
    compression "none", [ClientConnectEnable] off. *)
Theorem ConfigParse_server_and_fixed_fields (opts : ConnOptions) (h : Store)
    (cfg : Config) :
  fst (ConfigParse ReadFile TrimSpace Clean opts h) = (Some cfg, None) ->
  Bind (Server cfg)
    = match Get (Items opts) "server/bind" with
      | Some v => Value_String v
      | None => ""
      end /\
  AuthSecretKey (Server cfg) = "" /\
  AuthTLSCert (Server cfg) = None /\
  TableCompressName (Feature cfg) = "none" /\
  ClientConnectEnable cfg = false.
Proof.
  intros Hok. destruct (ConfigParse_success _ _ _ _ _ _ Hok) as [dir [_ ->]].
  repeat split; reflexivity.
Qed.

(** X16: a parsed [Config] is normal: [reset], on any file system and
    beside any store, changes neither the [Config] nor the store. *)
Theorem ConfigParse_result_is_normal (opts : ConnOptions) (h : Store) (cfg : Config) :
  fst (ConfigParse ReadFile TrimSpace Clean opts h) = (Some cfg, None) ->
  forall (ReadFile' : string -> option string) (TrimSpace' : string -> string)
         (h' : Store),
    reset ReadFile' TrimSpace' (cfg, h') = (tt, (cfg, h')).
Proof.
  intros Hok ReadFile' TrimSpace' h'.
  destruct (ConfigParse_success _ _ _ _ _ _ Hok) as [dir [_ ->]].
  rewrite reset_run. now rewrite normal_config_idem.
Qed.

(** X17: a parsed [Config] passes [Valid]. *)
Theorem ConfigParse_result_is_valid (opts : ConnOptions) (h : Store) (cfg : Config) :
  fst (ConfigParse ReadFile TrimSpace Clean opts h) = (Some cfg, None) ->
  forall h' : Store, Valid (cfg, h') = (None, (cfg, h')).
Proof.
  intros Hok h'.
  destruct (ConfigParse_success _ _ _ _ _ _ Hok) as [dir [_ ->]].
  now rewrite Valid_run.
Qed.

(** X18: [ConfigParse] returns the store it was given, and the same
    result on every file system: it reads no file. *)
Theorem ConfigParse_reads_no_file (ReadFile' : string -> option string)
    (TrimSpace' : string -> string) (opts : ConnOptions) (h : Store) :
  snd (ConfigParse ReadFile TrimSpace Clean opts h) = h /\
  ConfigParse ReadFile TrimSpace Clean opts h
  = ConfigParse ReadFile' TrimSpace' Clean opts h.
Proof.
  rewrite !ConfigParse_run.
  now destruct (resolved_directory Clean opts).
Qed.

(** X19: [ConfigParse] looks at nine keys only: two option sources that
    agree on them give the same result. *)
Theorem ConfigParse_ignores_other_keys (a b : ConnOptions) (h : Store) :
  Forall (fun key => Get (Items a) key = Get (Items b) key)
         [ "storage/data_directory"; "data_dir"; "server/bind";
           "performance/write_buffer_size"; "performance/block_cache_size";
           "performance/max_open_files"; "performance/max_table_size";
           "feature/write_meta_disable"; "feature/write_log_disable" ] ->
  ConfigParse ReadFile TrimSpace Clean a h = ConfigParse ReadFile TrimSpace Clean b h.
Proof.
  intros Hkeys. rewrite !ConfigParse_run.
  unfold resolved_directory, parsed_draft. cbv zeta.
  repeat (apply Forall_cons_1 in Hkeys; destruct Hkeys as [-> Hkeys]).
  reflexivity.
Qed.

(** X20: the data directory of a parsed [Config] is not empty, as
    [filepath.Clean] never returns the empty string. *)
Theorem ConfigParse_directory_not_empty (opts : ConnOptions) (h : Store)
    (cfg : Config) :
  (forall path, Clean path <> "") ->
  fst (ConfigParse ReadFile TrimSpace Clean opts h) = (Some cfg, None) ->
  DataDirectory (Storage cfg) <> "".
Proof.
  intros Hclean Hok.
  destruct (ConfigParse_success _ _ _ _ _ _ Hok) as [dir [Hdir ->]].
  cbn [normal_config parsed_draft Storage DataDirectory].
  unfold resolved_directory in Hdir.
  destruct (Get (Items opts) "storage/data_directory") as [v|].
  - injection Hdir as <-. apply Hclean.
  - destruct (Get (Items opts) "data_dir") as [v|]; [|discriminate].
    injection Hdir as <-. apply Hclean.
Qed.

(** X21: [NewConfig] followed by [reset] gives the defaults: the cleaned
    directory, every bounded field at the floor of its interval,
    compression "none", everything else zero; the store is left alone
    and the result passes [Valid]. *)
Theorem NewConfig_reset_defaults (dir : string) (h : Store) :
  snd (reset ReadFile TrimSpace (NewConfig Clean dir, h))
  = (mkConfig (mkConfigStorage (Clean dir))
              (mkConfigServer "" "" None)
              (mkConfigPerformance 4 8 8 500)
              (mkConfigFeature false false "none")
              (mkConfigCluster [])
              false,
     h) /\
  fst (Valid (snd (reset ReadFile TrimSpace (NewConfig Clean dir, h)))) = None.
Proof.
  rewrite reset_run. cbn [snd]. now rewrite Valid_run.
Qed.

(** X22: an option source that sets the data directory and none of the
    seven optional keys parses to what [NewConfig] on that directory,
    followed by [reset], gives. *)
Theorem ConfigParse_directory_only_is_NewConfig (opts : ConnOptions) (h : Store)
    (v : OptValue) :
  Get (Items opts) "storage/data_directory" = Some v ->
  Forall (fun key => Get (Items opts) key = None)
         [ "server/bind";
           "performance/write_buffer_size"; "performance/block_cache_size";
           "performance/max_open_files"; "performance/max_table_size";
           "feature/write_meta_disable"; "feature/write_log_disable" ] ->
  fst (ConfigParse ReadFile TrimSpace Clean opts h)
  = (Some (fst (snd (reset ReadFile TrimSpace (NewConfig Clean (Value_String v), h)))),
     None).
Proof.
  intros Hdir Hkeys. rewrite ConfigParse_run, reset_run.
  unfold resolved_directory, parsed_draft. cbv zeta. rewrite Hdir.
  repeat (apply Forall_cons_1 in Hkeys; destruct Hkeys as [-> Hkeys]).
  reflexivity.
Qed.

End FurtherParseProperties.

(** ** Selection, validation and parsing together *)


(** X24: a configuration with [ClientConnectEnable] set that passes
    [Valid] has a master list on which [randMasters] returns. *)
Theorem Valid_guards_randMasters (c : Config) (h : Store) (fuel : nat) (r cap : Z) :
  ClientConnectEnable c = true ->
  fst (Valid (c, h)) = None ->
  len (Masters (Cluster c)) <= int_max ->
  (length (Masters (Cluster c)) <= fuel)%nat ->
  exists ls, randMasters fuel r (Cluster c) cap = Ret ls.
Proof.
  intros Hon Hvalid Hmax Hfuel.
  rewrite Valid_run, Hon in Hvalid. cbn [fst andb] in Hvalid.
  assert (Hne : Masters (Cluster c) <> []).
  { destruct (Masters (Cluster c)); [discriminate Hvalid | discriminate]. }
  destruct (randMasters_nonempty fuel r (Cluster c) cap Hne Hmax Hfuel)
    as (offset & _ & _ & ->).
  now eexists.
Qed.

Section ParsedCluster.

Variable ReadFile : string -> option string.
Variable TrimSpace : string -> string.
Variable Clean : string -> string.

(** X25: on the cluster of a parsed [Config] [randMasters] panics, for
    every cap: [ConfigParse] provides no master. *)
Theorem randMasters_panics_on_parsed_cluster (opts : ConnOptions) (h : Store)
    (cfg : Config) (fuel : nat) (r cap : Z) :
  fst (ConfigParse ReadFile TrimSpace Clean opts h) = (Some cfg, None) ->
  randMasters fuel r (Cluster cfg) cap = Panic "invalid argument to Intn".
Proof.
  intros Hok. destruct (ConfigParse_success _ _ _ _ _ _ Hok) as [d [_ ->]].
  reflexivity.
Qed.

End ParsedCluster.

(** ** The further properties on the sample inputs *)

Lemma randMasters_negative_cap_selects_nothing_witness :
  randMasters 4 6 four_masters (-1) = Ret [].
Proof.
  apply (randMasters_negative_cap_selects_nothing 4 6 four_masters (-1)).
  - discriminate.
  - lia.
  - vm_compute. discriminate.
  - simpl. lia.
Defined.

Lemma randMasters_large_cap_selects_all_witness :
  exists ls,
    randMasters 4 6 four_masters 3 = Ret ls /\
    ls ≡ₚ Masters four_masters.
Proof.
  apply (randMasters_large_cap_selects_all 4 6 four_masters 3).
  - discriminate.
  - vm_compute. discriminate.
  - vm_compute. discriminate.
  - simpl. lia.
Defined.

Lemma randMasters_selects_without_repetition_witness :
  exists ls,
    randMasters 4 6 four_masters 2 = Ret ls /\
    ls ⊆+ Masters four_masters /\
    (forall m, m ∈ ls -> m ∈ Masters four_masters) /\
    (NoDup (Masters four_masters) -> NoDup ls).
Proof.
  apply (randMasters_selects_without_repetition 4 6 four_masters 2).
  - discriminate.
  - vm_compute. discriminate.
  - simpl. lia.
Defined.

Lemma randMasters_entry_witness :
  exists offset ls,
    Intn 6 (len (Masters four_masters)) = Ret offset /\
    randMasters 4 6 four_masters 2 = Ret ls /\
    ls !! 0%nat = Masters four_masters !! Z.to_nat offset /\
    forall j : nat,
      Z.of_nat j < Z.min (len (Masters four_masters)) (2 + 1) ->
      ls !! j = Masters four_masters
                  !! ((Z.to_nat offset + j) mod length (Masters four_masters))%nat.
Proof.
  apply (randMasters_entry 4 6 four_masters 2).
  - discriminate.
  - lia.
  - vm_compute. discriminate.
  - simpl. lia.
Defined.

Lemma reset_without_file_content_witness :
  snd (snd (reset sample_ReadFile sample_TrimSpace sample_state_inline))
  = snd sample_state_inline /\
  reset sample_ReadFile sample_TrimSpace sample_state_inline
  = reset (fun _ => None) (fun bs => bs) sample_state_inline.
Proof.
  apply (reset_without_file_content sample_ReadFile (fun _ => None)
           sample_TrimSpace (fun bs => bs) sample_state_inline).
  vm_compute. split; [right | left]; [discriminate | reflexivity].
Defined.

Lemma reset_reads_configured_paths_only_witness :
  reset sample_ReadFile sample_TrimSpace sample_state
  = reset sample_ReadFile_more sample_TrimSpace sample_state.
Proof.
  apply (reset_reads_configured_paths_only sample_ReadFile sample_ReadFile_more
           sample_TrimSpace sample_state 1%positive); reflexivity.
Defined.

Lemma ConfigParse_performance_witness :
  WriteBufferSize (Performance sample_parsed)
    = match Get (Items sample_options) "performance/write_buffer_size" with
      | Some v => clamp (Value_Int v) 4 128
      | None => 4
      end /\
  BlockCacheSize (Performance sample_parsed)
    = match Get (Items sample_options) "performance/block_cache_size" with
      | Some v => clamp (Value_Int v) 8 4096
      | None => 8
      end /\
  MaxTableSize (Performance sample_parsed)
    = match Get (Items sample_options) "performance/max_table_size" with
      | Some v => clamp (Value_Int v) 8 64
      | None => 8
      end /\
  MaxOpenFiles (Performance sample_parsed)
    = match Get (Items sample_options) "performance/max_open_files" with
      | Some v => clamp (Value_Int v) 500 10000
      | None => 500
      end.
Proof.
  apply (ConfigParse_performance sample_ReadFile sample_TrimSpace sample_Clean
           sample_options ∅ sample_parsed).
  reflexivity.
Defined.

Lemma ConfigParse_server_and_fixed_fields_witness :
  Bind (Server sample_parsed)
    = match Get (Items sample_options) "server/bind" with
      | Some v => Value_String v
      | None => ""
      end /\
  AuthSecretKey (Server sample_parsed) = "" /\
  AuthTLSCert (Server sample_parsed) = None /\
  TableCompressName (Feature sample_parsed) = "none" /\
  ClientConnectEnable sample_parsed = false.
Proof.
  apply (ConfigParse_server_and_fixed_fields sample_ReadFile sample_TrimSpace
           sample_Clean sample_options ∅ sample_parsed).
  reflexivity.
Defined.

Lemma ConfigParse_result_is_normal_witness :
  fst (ConfigParse sample_ReadFile sample_TrimSpace sample_Clean sample_options ∅)
  = (Some sample_parsed, None) /\
  forall (ReadFile' : string -> option string) (TrimSpace' : string -> string)
         (h' : Store),
    reset ReadFile' TrimSpace' (sample_parsed, h') = (tt, (sample_parsed, h')).
Proof.
  split; [reflexivity|].
  apply (ConfigParse_result_is_normal sample_ReadFile sample_TrimSpace sample_Clean
           sample_options ∅ sample_parsed).
  reflexivity.
Defined.

Lemma ConfigParse_result_is_valid_witness :
  fst (ConfigParse sample_ReadFile sample_TrimSpace sample_Clean sample_options ∅)
  = (Some sample_parsed, None) /\
  forall h' : Store, Valid (sample_parsed, h') = (None, (sample_parsed, h')).
Proof.
  split; [reflexivity|].
  apply (ConfigParse_result_is_valid sample_ReadFile sample_TrimSpace sample_Clean
           sample_options ∅ sample_parsed).
  reflexivity.
Defined.

Lemma ConfigParse_ignores_other_keys_witness :
  ConfigParse sample_ReadFile sample_TrimSpace sample_Clean sample_options ∅
  = ConfigParse sample_ReadFile sample_TrimSpace sample_Clean sample_options_more ∅.
Proof.
  apply (ConfigParse_ignores_other_keys sample_ReadFile sample_TrimSpace sample_Clean
           sample_options sample_options_more ∅).
  repeat constructor.
Defined.

Lemma ConfigParse_directory_not_empty_witness :
  (forall path, sample_Clean path <> "") /\
  DataDirectory (Storage sample_parsed) <> "".
Proof.
  assert (Hclean : forall path, sample_Clean path <> "").
  { intros path. unfold sample_Clean.
    destruct (String.eqb path "") eqn:E; [discriminate|].
    now apply String.eqb_neq. }
  split; [exact Hclean|].
  apply (ConfigParse_directory_not_empty sample_ReadFile sample_TrimSpace sample_Clean
           sample_options ∅ sample_parsed Hclean).
  reflexivity.
Defined.

Lemma ConfigParse_directory_only_is_NewConfig_witness :
  fst (ConfigParse sample_ReadFile sample_TrimSpace sample_Clean
         sample_options_directory_only ∅)
  = (Some (fst (snd (reset sample_ReadFile sample_TrimSpace
                       (NewConfig sample_Clean "/data", ∅)))),
     None).
Proof.
  apply (ConfigParse_directory_only_is_NewConfig sample_ReadFile sample_TrimSpace
           sample_Clean sample_options_directory_only ∅ (text "/data")).
  - reflexivity.
  - repeat constructor.
Defined.


Lemma Valid_guards_randMasters_witness :
  exists ls, randMasters 1 0 (Cluster (fst sample_state_inline)) 2 = Ret ls.
Proof.
  apply (Valid_guards_randMasters (fst sample_state_inline) (snd sample_state_inline)
           1 0 2).
  - reflexivity.
  - reflexivity.
  - vm_compute. discriminate.
  - simpl. lia.
Defined.

Lemma randMasters_panics_on_parsed_cluster_witness :
  randMasters 0 0 (Cluster sample_parsed) 2 = Panic "invalid argument to Intn".
Proof.
  apply (randMasters_panics_on_parsed_cluster sample_ReadFile sample_TrimSpace
           sample_Clean sample_options ∅ sample_parsed 0 0 2).
  reflexivity.
Defined.
